(** * wgkex worker: netlink peer synchronisation

    A shallow embedding of [wgkex/worker/netlink.py]: the derivation of a
    peer's IPv6 link-local address from its public key, the three kernel
    adapters (WireGuard peer table, route table, bridge FDB), the reconciler
    [link_handler], the stale-peer detector and the sweep
    [wg_flush_stale_peers].

    Conventions.
    - A Python [str] is a [string] holding the text's UTF-8 bytes; a Python
      [bytes] value is a [list byte].
    - Exceptions are values of [exn]; a computation that may raise returns a
      [result].
    - Calls into pyroute2 and the logger are effects on a [world]: the
      kernel's state changes and every request and log record is appended to
      a trace.  pyroute2 itself is a parameter, [perform].
    - Opening and closing the pyroute2 sessions ([with ... as ip]) changes
      nothing that is observed here and is left out; the logger never
      raises. *)

From Stdlib Require Import ZArith List String Ascii Lia Bool.
From Stdlib.Strings Require Import Byte.
From stdpp Require Import gmap strings pretty.
Import ListNotations.
Local Open Scope Z_scope.

(** ** MD5 (RFC 1321), the function behind [hashlib.md5] *)

Module Md5.

Definition mask32 : Z := 0xffffffff.
Definition w32 (x : Z) : Z := Z.land x mask32.
Definition add32 (x y : Z) : Z := w32 (x + y).
Definition not32 (x : Z) : Z := Z.lxor x mask32.
Definition rotl32 (x s : Z) : Z :=
  w32 (Z.lor (Z.shiftl x s) (Z.shiftr x (32 - s))).

Definition F (b c d : Z) : Z := Z.lor (Z.land b c) (Z.land (not32 b) d).
Definition G (b c d : Z) : Z := Z.lor (Z.land b d) (Z.land c (not32 d)).
Definition H (b c d : Z) : Z := Z.lxor (Z.lxor b c) d.
Definition I (b c d : Z) : Z := Z.lxor c (Z.lor b (not32 d)).

(** [T.(i) = floor (2^32 * |sin (i + 1)|)]. *)
Definition T : list Z :=
  [ 0xd76aa478; 0xe8c7b756; 0x242070db; 0xc1bdceee;
    0xf57c0faf; 0x4787c62a; 0xa8304613; 0xfd469501;
    0x698098d8; 0x8b44f7af; 0xffff5bb1; 0x895cd7be;
    0x6b901122; 0xfd987193; 0xa679438e; 0x49b40821;
    0xf61e2562; 0xc040b340; 0x265e5a51; 0xe9b6c7aa;
    0xd62f105d; 0x02441453; 0xd8a1e681; 0xe7d3fbc8;
    0x21e1cde6; 0xc33707d6; 0xf4d50d87; 0x455a14ed;
    0xa9e3e905; 0xfcefa3f8; 0x676f02d9; 0x8d2a4c8a;
    0xfffa3942; 0x8771f681; 0x6d9d6122; 0xfde5380c;
    0xa4beea44; 0x4bdecfa9; 0xf6bb4b60; 0xbebfbc70;
    0x289b7ec6; 0xeaa127fa; 0xd4ef3085; 0x04881d05;
    0xd9d4d039; 0xe6db99e5; 0x1fa27cf8; 0xc4ac5665;
    0xf4292244; 0x432aff97; 0xab9423a7; 0xfc93a039;
    0x655b59c3; 0x8f0ccc92; 0xffeff47d; 0x85845dd1;
    0x6fa87e4f; 0xfe2ce6e0; 0xa3014314; 0x4e0811a1;
    0xf7537e82; 0xbd3af235; 0x2ad7d2bb; 0xeb86d391 ].

Definition shifts : list Z :=
  [ 7; 12; 17; 22; 7; 12; 17; 22; 7; 12; 17; 22; 7; 12; 17; 22;
    5;  9; 14; 20; 5;  9; 14; 20; 5;  9; 14; 20; 5;  9; 14; 20;
    4; 11; 16; 23; 4; 11; 16; 23; 4; 11; 16; 23; 4; 11; 16; 23;
    6; 10; 15; 21; 6; 10; 15; 21; 6; 10; 15; 21; 6; 10; 15; 21 ].

Record state := St { sa : Z; sb : Z; sc : Z; sd : Z }.

Definition init : state :=
  St 0x67452301 0xefcdab89 0x98badcfe 0x10325476.

(** One of the 64 operations of a block; [m] holds the block's sixteen
    little-endian words. *)
Definition step (m : list Z) (st : state) (i : nat) : state :=
  let '(St a b c d) := st in
  let iz := Z.of_nat i in
  let '(f, g) :=
    if iz <? 16 then (F b c d, iz)
    else if iz <? 32 then (G b c d, (5 * iz + 1) mod 16)
    else if iz <? 48 then (H b c d, (3 * iz + 5) mod 16)
    else (I b c d, (7 * iz) mod 16) in
  let x := add32 (add32 (add32 a f) (nth i T 0)) (nth (Z.to_nat g) m 0) in
  St d (add32 b (rotl32 x (nth i shifts 0))) b c.

Definition word_le (b0 b1 b2 b3 : Z) : Z :=
  b0 + Z.shiftl b1 8 + Z.shiftl b2 16 + Z.shiftl b3 24.

Fixpoint words_le (bs : list Z) : list Z :=
  match bs with
  | b0 :: b1 :: b2 :: b3 :: rest => word_le b0 b1 b2 b3 :: words_le rest
  | _ => []
  end.

Definition compress (st : state) (block : list Z) : state :=
  let '(St a b c d) := fold_left (step (words_le block)) (seq 0 64) st in
  St (add32 (sa st) a) (add32 (sb st) b) (add32 (sc st) c) (add32 (sd st) d).

Fixpoint blocks (n : nat) (st : state) (bs : list Z) : state :=
  match n with
  | O => st
  | S n' => blocks n' (compress st (firstn 64 bs)) (skipn 64 bs)
  end.

Definition bytes_le (n : nat) (x : Z) : list Z :=
  map (fun i => Z.land (Z.shiftr x (8 * Z.of_nat i)) 0xff) (seq 0 n).

(** Padding: a [0x80] byte, zero bytes up to 56 modulo 64, then the bit
    length on 64 bits, least significant byte first. *)
Definition pad (msg : list Z) : list Z :=
  let len := Z.of_nat (List.length msg) in
  let zeros := Z.to_nat ((55 - len) mod 64) in
  msg ++ 0x80 :: repeat 0 zeros ++ bytes_le 8 ((8 * len) mod 2 ^ 64).

Definition digest_state (msg : list Z) : state :=
  let p := pad msg in
  blocks (List.length p / 64)%nat init p.

(** The sixteen digest bytes. *)
Definition digest (msg : list byte) : list Z :=
  let '(St a b c d) :=
    digest_state (map (fun b => Z.of_N (Byte.to_N b)) msg) in
  bytes_le 4 a ++ bytes_le 4 b ++ bytes_le 4 c ++ bytes_le 4 d.

End Md5.

(** ** Python values: exceptions, text and bytes *)

(** The exceptions this module can meet.  [KeyboardInterrupt] derives from
    [BaseException] only, the others from [Exception].
    [KernelInterfaceError] is the class section 7 of the specification names
    for kernel failures, with the subsystem and the interface it is about;
    nothing in [netlink.py] defines or raises it. *)
Inductive exn : Type :=
| UnicodeEncodeError
| UnicodeDecodeError
| AttributeError
| IndexError
| ValueError
| NetlinkError (code : Z)
| KernelInterfaceError (subsystem interface : string)
| KeyboardInterrupt.

Definition is_Exception (e : exn) : bool :=
  match e with
  | KeyboardInterrupt => false
  | _ => true
  end.

Inductive result (A : Type) : Type :=
| Ok (a : A)
| Raise (e : exn).
Arguments Ok {A} a.
Arguments Raise {A} e.

Definition rbind {A B} (r : result A) (f : A -> result B) : result B :=
  match r with
  | Ok a => f a
  | Raise e => Raise e
  end.

Declare Scope result_scope.
Delimit Scope result_scope with result.
Notation "'let?' x ':=' r 'in' k" := (rbind r (fun x => k))
  (at level 10, x name, r at level 100, k at level 200) : result_scope.

Definition byte_val (b : byte) : Z := Z.of_N (Byte.to_N b).
Definition char_val (c : ascii) : Z := Z.of_N (N_of_ascii c).

(** [s.encode("ascii")]: every character must be below 128. *)
Definition is_ascii (s : string) : bool :=
  forallb (fun b => byte_val b <? 128) (list_byte_of_string s).

Definition encode_ascii (s : string) : result (list byte) :=
  if is_ascii s then Ok (list_byte_of_string s) else Raise UnicodeEncodeError.

(** [b.decode("utf-8")]: the strict decoder; [utf8_valid] follows the table
    of well-formed byte sequences (no overlong forms, no surrogates, nothing
    above U+10FFFF). *)
Definition in_range (lo hi x : Z) : bool := (lo <=? x) && (x <=? hi).

Fixpoint utf8_valid_from (fuel : nat) (bs : list Z) : bool :=
  match fuel with
  | O => match bs with [] => true | _ => false end
  | S fuel' =>
    match bs with
    | [] => true
    | b0 :: r0 =>
      if b0 <? 0x80 then utf8_valid_from fuel' r0
      else match r0 with
      | [] => false
      | b1 :: r1 =>
        if in_range 0xc2 0xdf b0 then
          in_range 0x80 0xbf b1 && utf8_valid_from fuel' r1
        else match r1 with
        | [] => false
        | b2 :: r2 =>
          if in_range 0xe0 0xef b0 then
            in_range (if b0 =? 0xe0 then 0xa0 else 0x80)
                     (if b0 =? 0xed then 0x9f else 0xbf) b1
            && in_range 0x80 0xbf b2 && utf8_valid_from fuel' r2
          else match r2 with
          | [] => false
          | b3 :: r3 =>
            in_range 0xf0 0xf4 b0
            && in_range (if b0 =? 0xf0 then 0x90 else 0x80)
                        (if b0 =? 0xf4 then 0x8f else 0xbf) b1
            && in_range 0x80 0xbf b2 && in_range 0x80 0xbf b3
            && utf8_valid_from fuel' r3
          end
        end
      end
    end
  end.

Definition utf8_valid (bs : list byte) : bool :=
  utf8_valid_from (List.length bs) (map byte_val bs).

Definition decode_utf8 (bs : list byte) : result string :=
  if utf8_valid bs then Ok (string_of_list_byte bs)
  else Raise UnicodeDecodeError.

(** Lower-case hexadecimal digits, as [hexdigest] and ['%x'] print them. *)
Definition hexdigit (n : Z) : ascii :=
  ascii_of_N (Z.to_N (if n <? 10 then 48 + n else 87 + n)).

Definition hexval (c : ascii) : option Z :=
  let n := char_val c in
  if in_range 48 57 n then Some (n - 48)
  else if in_range 97 102 n then Some (n - 87)
  else if in_range 65 70 n then Some (n - 55)
  else None.

Definition hex2 (b : Z) : string :=
  String (hexdigit (b / 16)) (String (hexdigit (b mod 16)) EmptyString).

(** [hashlib.md5(msg).hexdigest()] *)
Definition hexdigest (msg : list byte) : string :=
  fold_right (fun b acc => hex2 b +:+ acc) EmptyString (Md5.digest msg).

Fixpoint str_take (n : nat) (s : string) : string :=
  match n, s with
  | S n', String c r => String c (str_take n' r)
  | _, _ => EmptyString
  end.

Fixpoint str_drop (n : nat) (s : string) : string :=
  match n, s with
  | S n', String _ r => str_drop n' r
  | _, _ => s
  end.

(** [textwrap.wrap(text, width)] for a text that is a single word (no
    whitespace, no hyphen), as a hexadecimal digest is: the word is broken
    into consecutive pieces of [width] characters.  [width] is positive. *)
Fixpoint wrap_pieces (fuel width : nat) (text : string) : list string :=
  match fuel, text with
  | S fuel', String _ _ =>
      str_take width text :: wrap_pieces fuel' width (str_drop width text)
  | _, _ => []
  end.

Definition wrap (text : string) (width : nat) : list string :=
  wrap_pieces (String.length text) width text.

Definition is_digit (c : ascii) : bool := in_range 48 57 (char_val c).

(** Does [s] match [\d+$]?  In Python [$] matches at the end of the text and
    also just before a newline that ends it. *)
Fixpoint digits_to_end (seen : bool) (s : string) : bool :=
  match s with
  | EmptyString => seen
  | String c r =>
      if is_digit c then digits_to_end true r
      else seen && (c =? "010")%char
                && match r with EmptyString => true | _ => false end
  end.

Fixpoint drop_digits (s : string) : string :=
  match s with
  | String c r => if is_digit c then drop_digits r else s
  | EmptyString => s
  end.

(** [re.sub(r"/\d+$", repl, s)] on a text whose digits are ASCII digits. *)
Fixpoint re_sub_prefixlen (repl s : string) : string :=
  match s with
  | EmptyString => EmptyString
  | String c r =>
      if (c =? "/")%char && digits_to_end false r
      then repl +:+ drop_digits r
      else String c (re_sub_prefixlen repl r)
  end.

(** ** IPv6 text, as Python's [ipaddress] prints it *)

(** The eight 16-bit groups of a 128-bit address, most significant first. *)
Definition hextets (a : Z) : list Z :=
  map (fun i => (a / 2 ^ (16 * (7 - Z.of_nat i))) mod 65536) (seq 0 8).

(** Leading zero digits are not printed; the last digit always is. *)
Fixpoint strip0 (ds : list Z) : list Z :=
  match ds with
  | d :: (_ :: _) as r => if d =? 0 then strip0 r else ds
  | _ => ds
  end.

(** ['%x' % h] for a hextet. *)
Definition hextet_str (h : Z) : string :=
  string_of_list_ascii
    (map hexdigit
         (strip0 [h / 4096 mod 16; h / 256 mod 16; h / 16 mod 16; h mod 16])).

Fixpoint zero_run (l : list Z) : nat :=
  match l with
  | 0 :: r => S (zero_run r)
  | _ => O
  end.

(** First longest run of zero hextets, as [(start, length)]; a run counts
    only when longer than the one recorded so far. *)
Fixpoint best_run (i : nat) (l : list Z) (best : nat * nat) : nat * nat :=
  match l with
  | [] => best
  | _ :: r =>
      let n := zero_run l in
      best_run (S i) r (if (snd best <? n)%nat then (i, n) else best)
  end.

Definition compress_hextets (hs : list Z) : string :=
  let '(start, len) := best_run 0 hs (O, 1%nat) in
  if (1 <? len)%nat then
    String.concat ":" (map hextet_str (firstn start hs)) +:+ "::" +:+
    String.concat ":" (map hextet_str (skipn (start + len) hs))
  else String.concat ":" (map hextet_str hs).

Definition ipv6_str (a : Z) : string := compress_hextets (hextets a).

Record ip_network := { network_address : Z; prefixlen : Z }.

(** The network [fe80::/10]. *)
Definition link_local : ip_network :=
  {| network_address := 0xfe80 * 2 ^ 112; prefixlen := 10 |}.

Definition network_str (n : ip_network) : string :=
  ipv6_str (network_address n) +:+ "/" +:+ pretty (prefixlen n).

(** ** [wgkex.common.utils.mac2eui64] *)

Fixpoint split_on (sep : ascii) (s : string) : list string :=
  match s with
  | EmptyString => [EmptyString]
  | String c r =>
      if (c =? sep)%char then EmptyString :: split_on sep r
      else match split_on sep r with
           | x :: xs => String c x :: xs
           | [] => [String c EmptyString]
           end
  end.

Definition parse_octet (s : string) : option Z :=
  match s with
  | String hi (String lo EmptyString) =>
      match hexval hi, hexval lo with
      | Some h, Some l => Some (16 * h + l)
      | _, _ => None
      end
  | _ => None
  end.

Definition parse_mac (mac : string) : option (list Z) :=
  match split_on ":" mac with
  | [_; _; _; _; _; _] as groups => mapM parse_octet groups
  | _ => None
  end.

(** The modified EUI-64 interface identifier of a 48-bit address: [ff:fe] is
    inserted in the middle and the universal/local bit of the first octet is
    inverted. *)
Definition modified_eui64 (mac : list Z) : Z :=
  match mac with
  | [m0; m1; m2; m3; m4; m5] =>
      fold_left (fun acc b => 256 * acc + b)
                [Z.lxor m0 2; m1; m2; 0xff; 0xfe; m3; m4; m5] 0
  | _ => 0
  end.

(** Modelled from the spec: [mac2eui64] lives in [wgkex/common/utils.py],
    which is not part of the sources at hand.  Following section 4.1, steps 4
    and 5, it expands the 6-octet address [mac] into a modified EUI-64
    interface identifier, adds it to the network [prefix] and returns
    the address as text followed by [/] and the prefix length of the network.
    The network is passed as a value ([link_local] for the text
    ["fe80::/10"]); a [mac] that is not six colon-separated octets is
    rejected. *)
Definition mac2eui64 (mac : string) (prefix : ip_network) : result string :=
  match parse_mac mac with
  | Some octets =>
      Ok (ipv6_str (network_address prefix + modified_eui64 octets)
          +:+ "/" +:+ pretty (prefixlen prefix))
  | None => Raise ValueError
  end.

(** ** [WireGuardClient] *)

Record WireGuardClient := {
  public_key : string;
  domain : string;
  remove : bool;
}.

Local Open Scope result_scope.

Definition lladdr (self : WireGuardClient) : result string :=
  let? key_bytes := encode_ascii (public_key self) in
  let hashed_key := hexdigest (key_bytes ++ ["010"%byte]) in
  let hash_as_list := wrap hashed_key 2 in
  let current_mac_addr := String.concat ":" ("02" :: firstn 5 hash_as_list) in
  let? eui := mac2eui64 current_mac_addr link_local in
  Ok (re_sub_prefixlen "/128" eui).

Definition vx_interface (self : WireGuardClient) : string :=
  "vx-" +:+ domain self.

Definition wg_interface (self : WireGuardClient) : string :=
  "wg-" +:+ domain self.

(** ** The kernel as seen through pyroute2 *)

(** What [wg.info] reports: one message per device, each with an optional
    list of peers; [get_attr] yields [None] for an attribute that is not
    there. *)
Record wgpeer := {
  WGPEER_A_PUBLIC_KEY : option (list byte);
  WGPEER_A_LAST_HANDSHAKE_TIME : option (gmap string Z);
}.

Record wgdevice := { WGDEVICE_A_PEERS : option (list wgpeer) }.

(** The [peer=] dictionary handed to [wg.set]. *)
Record peer_spec := {
  spec_public_key : string;
  spec_allowed_ips : list string;
  spec_remove : bool;
}.

(** The requests this module sends. *)
Inductive call : Type :=
| WgSet (ifname : string) (peer : peer_spec)
| WgInfo (ifname : string)
| LinkLookup (ifname : string)
| IpRoute (command dst : string) (oif : Z)
| IpFdb (command : string) (ifindex : Z) (mac dst : string) (nda_ifindex : Z).

Inductive level := DEBUG | INFO | ERROR.

Section Netlink.

(** [reply] is what a successful [set], [route] or [fdb] request returns;
    [K] is the state of the kernel. *)
Context {reply K : Type}.

Definition answer (c : call) : Type :=
  match c with
  | WgInfo _ => list wgdevice
  | LinkLookup _ => list Z
  | _ => reply
  end.

(** pyroute2: every request acts on the kernel and returns or raises. *)
Variable perform : forall c : call, K -> result (answer c) * K.

(** An entry of the outcome map of [link_handler]: what the adapter
    returned, or the exception object that was caught. *)
Inductive outcome : Type :=
| Returned (r : reply)
| Caught (e : exn).

Inductive logarg : Type :=
| LStr (s : string)
| LStrs (l : list string)
| LClient (c : WireGuardClient)
| LClients (l : list WireGuardClient)
| LExn (e : exn)
| LDevices (l : list wgdevice)
| LPeers (o : option (list wgpeer))
| LOutcomes (l : list (gmap string outcome)).

Inductive event : Type :=
| Call (c : call)
| Log (lvl : level) (fmt : string) (args : list logarg).

(** The world a call runs in: the kernel, the clock (microseconds since
    the epoch, the instant [datetime.now()] denotes) and everything the
    module has requested or logged so far. *)
Record world := World {
  kernel : K;
  clock : Z;
  trace : list event;
}.

Definition M (A : Type) : Type := world -> result A * world.

Definition mret {A} (a : A) : M A := fun w => (Ok a, w).

Definition mbind {A B} (m : M A) (f : A -> M B) : M B :=
  fun w =>
    match m w with
    | (Ok a, w') => f a w'
    | (Raise e, w') => (Raise e, w')
    end.

Definition lift {A} (r : result A) : M A := fun w => (r, w).

Definition emit (ev : event) (w : world) : world :=
  World (kernel w) (clock w) (trace w ++ [ev]).

Definition log (lvl : level) (fmt : string) (args : list logarg) : M unit :=
  fun w => (Ok tt, emit (Log lvl fmt args) w).

Definition request (c : call) : M (answer c) :=
  fun w =>
    let '(r, k) := perform c (kernel w) in
    (r, World k (clock w) (trace w ++ [Call c])).

Definition now : M Z := fun w => (Ok (clock w), w).

(** [try: body except Exception as e: handler e] *)
Definition try_except {A} (body : M A) (handler : exn -> M A) : M A :=
  fun w =>
    match body w with
    | (Raise e, w') =>
        if is_Exception e then handler e w' else (Raise e, w')
    | done => done
    end.

Notation "'do' x <- m ; k" := (mbind m (fun x => k))
  (at level 10, x name, m at level 100, k at level 200, only parsing).
Notation "'run' m ; k" := (mbind m (fun _ => k))
  (at level 10, m at level 100, k at level 200, only parsing).

(** [[f(x) for x in xs]] *)
Fixpoint for_each {A B} (f : A -> M B) (xs : list A) : M (list B) :=
  match xs with
  | [] => mret []
  | x :: rest =>
      do y <- f x;
      do ys <- for_each f rest;
      mret (y :: ys)
  end.

(** [l[0]] *)
Definition item0 {A} (l : list A) : result A :=
  match l with
  | x :: _ => Ok x
  | [] => Raise IndexError
  end.

(** *** The three adapters *)

Definition update_wireguard_peer (client : WireGuardClient) : M reply :=
  do addr <- lift (lladdr client);
  let wg_peer :=
    {| spec_public_key := public_key client;
       spec_allowed_ips := [addr];
       spec_remove := remove client |} in
  request (WgSet (wg_interface client) wg_peer).

Definition route_handler (client : WireGuardClient) : M reply :=
  let command := if remove client then "del" else "replace" in
  do dst <- lift (lladdr client);
  do found <- request (LinkLookup (wg_interface client));
  do oif <- lift (item0 found);
  request (IpRoute command dst oif).

Definition bridge_fdb_handler (client : WireGuardClient) : M reply :=
  let command := if remove client then "del" else "append" in
  do found <- request (LinkLookup (vx_interface client));
  do ifindex <- lift (item0 found);
  do addr <- lift (lladdr client);
  let dst := re_sub_prefixlen "" addr in
  do found' <- request (LinkLookup (wg_interface client));
  do nda_ifindex <- lift (item0 found');
  request (IpFdb command ifindex "00:00:00:00:00:00" dst nda_ifindex).

(** *** The reconciler *)

Definition link_handler (client : WireGuardClient)
  : M (gmap string outcome) :=
  let results : gmap string outcome := ∅ in
  do r <- update_wireguard_peer client;
  let results := <["Wireguard" := Returned r]> results in
  run log DEBUG "Handling links for %s" [LClient client];
  do results <-
    try_except
      (do r <- route_handler client;
       let results := <["Route" := Returned r]> results in
       run log INFO "Updated route for %s" [LClient client];
       mret results)
      (fun e =>
         run log ERROR "Failed to update route for %s (%s)"
                 [LClient client; LExn e];
         mret (<["Route" := Caught e]> results));
  do r <- bridge_fdb_handler client;
  let results := <["Bridge FDB" := Returned r]> results in
  run log DEBUG "Updated Bridge FDB for %s" [LClient client];
  mret results.

(** *** The stale-peer detector *)

Definition _PEER_TIMEOUT_HOURS : Z := 3.

(** [int((datetime.now() - timedelta(hours=...)).timestamp())]; [int]
    truncates towards zero. *)
Definition cutoff_of (now_us : Z) : Z :=
  Z.quot (now_us - _PEER_TIMEOUT_HOURS * 3600 * 1000000) 1000000.

(** [if clients:] *)
Definition truthy {A} (o : option (list A)) : bool :=
  match o with
  | Some (_ :: _) => true
  | _ => false
  end.

(** The [for peer in peers_on_interface] loop. *)
Fixpoint collect_clients (peers_on_interface : list wgdevice)
         (all_clients : list wgpeer) : M (list wgpeer) :=
  match peers_on_interface with
  | [] => mret all_clients
  | peer :: rest =>
      let clients := WGDEVICE_A_PEERS peer in
      run log INFO "Got clients: %s." [LPeers clients];
      collect_clients rest
        (if truthy clients then all_clients ++ default [] clients
         else all_clients)
  end.

(** The condition of the comprehension; [.get] on [None] raises. *)
Definition handshake_before (three_hrs_in_secs : Z) (client : wgpeer)
  : result bool :=
  match WGPEER_A_LAST_HANDSHAKE_TIME client with
  | Some ts => Ok (default 0 (ts !! "tv_sec") <? three_hrs_in_secs)
  | None => Raise AttributeError
  end.

(** The element of the comprehension. *)
Definition public_key_text (client : wgpeer) : result string :=
  match WGPEER_A_PUBLIC_KEY client with
  | Some key => decode_utf8 key
  | None => Raise AttributeError
  end.

Fixpoint stale_keys (three_hrs_in_secs : Z) (all_clients : list wgpeer)
  : result (list string) :=
  match all_clients with
  | [] => Ok []
  | client :: rest =>
      let? stale := handshake_before three_hrs_in_secs client in
      if (stale : bool) then
        let? key := public_key_text client in
        let? keys := stale_keys three_hrs_in_secs rest in
        Ok (key :: keys)
      else stale_keys three_hrs_in_secs rest
  end.

Definition find_stale_wireguard_clients (iface : string)
  : M (list string) :=
  do now_us <- now;
  let three_hrs_in_secs := cutoff_of now_us in
  run log INFO "Starting search for stale wireguard peers for interface %s."
          [LStr iface];
  do peers_on_interface <- request (WgInfo iface);
  run log INFO "Got infos: %s." [LDevices peers_on_interface];
  do all_clients <- collect_clients peers_on_interface [];
  lift (stale_keys three_hrs_in_secs all_clients).

(** *** The sweep *)

Definition wg_flush_stale_peers (domain : string)
  : M (list (gmap string outcome)) :=
  run log INFO "Searching for stale clients for %s" [LStr domain];
  do stale_clients <- find_stale_wireguard_clients ("wg-" +:+ domain);
  run log DEBUG "Found stale clients: %s" [LStrs stale_clients];
  run log INFO "Searching for stale WireGuard clients." [];
  let stale_wireguard_clients :=
    map (fun stale_client =>
           {| public_key := stale_client; domain := domain; remove := true |})
        stale_clients in
  run log DEBUG "Found stable WireGuard clients: %s"
          [LClients stale_wireguard_clients];
  run log INFO "Processing clients." [];
  do link_handled <- for_each link_handler stale_wireguard_clients;
  run log DEBUG "Handled the following clients: %s" [LOutcomes link_handled];
  mret link_handled.

End Netlink.


(** ** A small kernel for concrete scenarios

    Interfaces with their indices, the peers of each WireGuard interface,
    the routes and the FDB entries.  A request on an interface that does not
    exist is answered as netlink does: [wg.set] and [wg.info] raise
    [NetlinkError] (ENODEV), [link_lookup] returns no index.  Deleting a
    route or an FDB entry that is not there is rejected (ESRCH, ENOENT). *)
Module Sim.

Record state := {
  links : list (string * Z);
  wg_peers : list (string * list wgpeer);
  routes : list (string * Z);
  fdb : list (Z * string * Z);
}.

Definition has_link (ifname : string) (k : state) : bool :=
  existsb (fun l => String.eqb (fst l) ifname) (links k).

Definition peers_of (ifname : string) (k : state) : list wgpeer :=
  match find (fun e => String.eqb (fst e) ifname) (wg_peers k) with
  | Some e => snd e
  | None => []
  end.

Definition has_key (key : string) (p : wgpeer) : bool :=
  match WGPEER_A_PUBLIC_KEY p with
  | Some b => String.eqb (string_of_list_byte b) key
  | None => false
  end.

Definition set_peers (ifname : string) (ps : list wgpeer) (k : state)
  : state :=
  {| links := links k;
     wg_peers :=
       (ifname, ps)
         :: List.filter (fun e => negb (String.eqb (fst e) ifname)) (wg_peers k);
     routes := routes k;
     fdb := fdb k |}.

Definition new_peer (key : string) : wgpeer :=
  {| WGPEER_A_PUBLIC_KEY := Some (list_byte_of_string key);
     WGPEER_A_LAST_HANDSHAKE_TIME := Some {[ "tv_sec" := 0; "tv_nsec" := 0 ]} |}.

Definition wg_set (ifname : string) (p : peer_spec) (k : state)
  : result unit * state :=
  if has_link ifname k then
    let ps := peers_of ifname k in
    let key := spec_public_key p in
    let ps' :=
      if spec_remove p then List.filter (fun q => negb (has_key key q)) ps
      else if existsb (has_key key) ps then ps
      else ps ++ [new_peer key] in
    (Ok tt, set_peers ifname ps' k)
  else (Raise (NetlinkError 19), k).

Definition wg_info (ifname : string) (k : state)
  : result (list wgdevice) * state :=
  if has_link ifname k then
    (Ok [ {| WGDEVICE_A_PEERS :=
               match peers_of ifname k with
               | [] => None
               | ps => Some ps
               end |} ], k)
  else (Raise (NetlinkError 19), k).

Definition link_lookup (ifname : string) (k : state)
  : result (list Z) * state :=
  (Ok (map snd (List.filter (fun l => String.eqb (fst l) ifname) (links k))), k).

Definition same_route (dst : string) (oif : Z) (r : string * Z) : bool :=
  String.eqb (fst r) dst && (snd r =? oif).

Definition ip_route (command dst : string) (oif : Z) (k : state)
  : result unit * state :=
  let others := List.filter (fun r => negb (same_route dst oif r)) (routes k) in
  let put rs :=
    {| links := links k; wg_peers := wg_peers k; routes := rs;
       fdb := fdb k |} in
  if String.eqb command "del" then
    if existsb (same_route dst oif) (routes k) then (Ok tt, put others)
    else (Raise (NetlinkError 3), k)
  else (Ok tt, put ((dst, oif) :: others)).

Definition same_fdb (ifindex : Z) (dst : string) (nda : Z)
           (e : Z * string * Z) : bool :=
  let '(i, d, n) := e in (i =? ifindex) && String.eqb d dst && (n =? nda).

Definition ip_fdb (command : string) (ifindex : Z) (dst : string) (nda : Z)
           (k : state) : result unit * state :=
  let others := List.filter (fun e => negb (same_fdb ifindex dst nda e)) (fdb k) in
  let put es :=
    {| links := links k; wg_peers := wg_peers k; routes := routes k;
       fdb := es |} in
  if String.eqb command "del" then
    if existsb (same_fdb ifindex dst nda) (fdb k) then (Ok tt, put others)
    else (Raise (NetlinkError 2), k)
  else (Ok tt, put (fdb k ++ [(ifindex, dst, nda)])).

Definition perform (c : call) : state -> result (@answer unit c) * state :=
  match c with
  | WgSet ifname p => wg_set ifname p
  | WgInfo ifname => wg_info ifname
  | LinkLookup ifname => link_lookup ifname
  | IpRoute command dst oif => ip_route command dst oif
  | IpFdb command ifindex _ dst nda => ip_fdb command ifindex dst nda
  end.

Definition peer (key : string) (handshake : option (gmap string Z)) : wgpeer :=
  {| WGPEER_A_PUBLIC_KEY := Some (list_byte_of_string key);
     WGPEER_A_LAST_HANDSHAKE_TIME := handshake |}.

Definition start (k : state) (clock_us : Z) : @world unit state :=
  World k clock_us [].

End Sim.

(** ** Vocabulary of the statements *)

(** Does the character [c] occur in [s]? *)
Fixpoint has_char (c : ascii) (s : string) : bool :=
  match s with
  | EmptyString => false
  | String x r => (x =? c)%char || has_char c r
  end.

Definition octet (b : Z) : Prop := 0 <= b < 256.

(** The hexadecimal text of a list of octets, two digits each. *)
Definition hexcat (bs : list Z) : string :=
  fold_right (fun b acc => hex2 b +:+ acc) EmptyString bs.

(** The groups printed after [fe80::] for the address
    [fe80:0:0:0:h4:h5:h6:h7]: a zero [h4] joins the compressed run. *)
Definition link_local_groups (h4 h5 h6 h7 : Z) : list Z :=
  (if h4 =? 0 then [] else [h4]) ++ [h5; h6; h7].

(** Reading a hexadecimal numeral back. *)
Fixpoint parse_hex_from (acc : Z) (s : string) : option Z :=
  match s with
  | EmptyString => Some acc
  | String c r =>
      match hexval c with
      | Some d => parse_hex_from (16 * acc + d) r
      | None => None
      end
  end.

Definition parse_hex (s : string) : option Z := parse_hex_from 0 s.

Definition hextet (h : Z) : Prop := 0 <= h < 65536.

Definition newline : byte := "010"%byte.

(** The derivation as section 4.1 of the specification words it.

    Steps 1 and 2: the first five octets of the MD5 digest of the key's
    UTF-8 bytes followed by a newline. *)
Definition reference_octets (k : string) : list Z :=
  firstn 5 (Md5.digest (list_byte_of_string k ++ [newline])).

(** Step 3: the pseudo-hardware address [02:o0:o1:o2:o3:o4]. *)
Definition reference_mac (k : string) : list Z := 0x02 :: reference_octets k.

(** Step 4: modified EUI-64 under [fe80::/10]. *)
Definition reference_address (k : string) : Z :=
  network_address link_local + modified_eui64 (reference_mac k).

(** Step 5: the prefix length is 128. *)
Definition reference_prefixlen : Z := 128.

Definition reference_lladdr (k : string) : string :=
  ipv6_str (reference_address k) +:+ "/" +:+ pretty reference_prefixlen.

(** The key of the golden-value scenario, and two keys whose digests agree
    on the first five octets. *)
Definition golden_key : string := "AAAAAAAAAAAAAAAAAAAAAAAAAAAAAAAAAAAAAAA=".

Definition key_one : string := "0JxRE1tB8v9mSHYduke/OU+IKVkA2jeQQG3RR1ZGd8A=".
Definition key_two : string := "YLMPIzg4AvcwSmp52lsW4FIxWBNnvLV8mBNUCdAzOFs=".

(** The peers a [wg.info] answer holds, in the order reported. *)
Definition reported_peers (devices : list wgdevice) : list wgpeer :=
  flat_map (fun d => default [] (WGDEVICE_A_PEERS d)) devices.

(** The seconds of the last handshake; a record without [tv_sec] counts as
    zero. *)
Definition tv_sec (ts : gmap string Z) : Z := default 0 (ts !! "tv_sec").



(** The peer carries its public key, as bytes that are UTF-8 text. *)
Definition has_text_key (p : wgpeer) : Prop :=
  exists key, WGPEER_A_PUBLIC_KEY p = Some key /\ utf8_valid key = true.

(** The claim's reading of staleness: the handshake is known and older than
    the cutoff, or it is absent or zero. *)
Definition stale (cutoff : Z) (p : wgpeer) : bool :=
  match WGPEER_A_LAST_HANDSHAKE_TIME p with
  | Some ts =>
      match ts !! "tv_sec" with
      | Some t => (t <? cutoff) || (t =? 0)
      | None => true
      end
  | None => true
  end.

Definition key_text (p : wgpeer) : string :=
  match WGPEER_A_PUBLIC_KEY p with
  | Some key => string_of_list_byte key
  | None => EmptyString
  end.

(** The client the sweep builds for a stale key. *)
Definition stale_client (domain key : string) : WireGuardClient :=
  {| public_key := key; domain := domain; remove := true |}.

Section Vocabulary.

Context {reply K : Type}.
Variable perform : forall c : call, K -> result (@answer reply c) * K.

Abbreviation world := (@world reply K).
Abbreviation outcome := (@outcome reply).

(** [w'] is [w] with the events [evs] added, in this order. *)
Definition extends (w w' : world) (evs : list event) : Prop :=
  trace w' = trace w ++ evs.

(** The dictionary [update_wireguard_peer] sends for [c]. *)
Definition the_peer (c : WireGuardClient) (addr : string) : peer_spec :=
  {| spec_public_key := public_key c;
     spec_allowed_ips := [addr];
     spec_remove := remove c |}.

(** The log records of [link_handler]. *)
Definition handling_links (c : WireGuardClient) : @event reply :=
  Log DEBUG "Handling links for %s" [LClient c].
Definition updated_route (c : WireGuardClient) : @event reply :=
  Log INFO "Updated route for %s" [LClient c].
Definition failed_route (c : WireGuardClient) (e : exn) : @event reply :=
  Log ERROR "Failed to update route for %s (%s)" [LClient c; LExn e].
Definition updated_fdb (c : WireGuardClient) : @event reply :=
  Log DEBUG "Updated Bridge FDB for %s" [LClient c].

(** What the Route step of [link_handler] records and logs for a result of
    [route_handler] that does not propagate. *)
Definition route_outcome (r : result reply) : outcome :=
  match r with
  | Ok x => Returned x
  | Raise e => Caught e
  end.

Definition route_event (c : WireGuardClient) (r : result reply) : @event reply :=
  match r with
  | Ok _ => updated_route c
  | Raise e => failed_route c e
  end.

(** Does the result of [route_handler] stay inside [link_handler]? *)
Definition absorbed (r : result reply) : bool :=
  match r with
  | Ok _ => true
  | Raise e => is_Exception e
  end.

(** The Bridge FDB step of [link_handler], entered with the outcomes
    gathered so far. *)
Definition fdb_step (c : WireGuardClient) (results : gmap string outcome)
           (w : world) : result (gmap string outcome) * world :=
  match bridge_fdb_handler perform c w with
  | (Ok r, w') =>
      (Ok (<["Bridge FDB" := Returned r]> results), emit (updated_fdb c) w')
  | (Raise e, w') => (Raise e, w')
  end.

(** The log records of the detector and of the sweep. *)
Definition search_started (iface : string) : @event reply :=
  Log INFO "Starting search for stale wireguard peers for interface %s."
      [LStr iface].
Definition got_infos (devices : list wgdevice) : @event reply :=
  Log INFO "Got infos: %s." [LDevices devices].
Definition got_clients (d : wgdevice) : @event reply :=
  Log INFO "Got clients: %s." [LPeers (WGDEVICE_A_PEERS d)].
Definition searching (domain : string) : @event reply :=
  Log INFO "Searching for stale clients for %s" [LStr domain].

(** The world in which the comprehension is evaluated. *)
Definition after_info (iface : string) (devices : list wgdevice) (k : K)
           (w : world) : world :=
  World k (clock w)
        (trace w ++ [search_started iface; Call (WgInfo iface);
                     got_infos devices] ++ map got_clients devices).

(** The world in which the sweep starts to process the stale peers. *)
Definition processing (domain : string) (keys : list string) (w : world)
  : world :=
  emit (Log INFO "Processing clients." [])
    (emit (Log DEBUG "Found stable WireGuard clients: %s"
               [LClients (map (stale_client domain) keys)])
       (emit (Log INFO "Searching for stale WireGuard clients." [])
          (emit (Log DEBUG "Found stale clients: %s" [LStrs keys]) w))).

End Vocabulary.

(** ** Concrete scenarios *)

Module Scenario.

(** The current time [T], in seconds and in microseconds. *)
Definition T : Z := 1700000000.
Definition T_us : Z := T * 1000000.
Definition hours (n : Z) : Z := n * 3600.

Definition handshake_at (t : Z) : option (gmap string Z) :=
  Some {[ "tv_sec" := t; "tv_nsec" := 0 ]}.

Definition peer_A : wgpeer := Sim.peer "A" (handshake_at (T - hours 4)).
Definition peer_B : wgpeer := Sim.peer "B" (handshake_at (T - hours 1)).
(** Peer C without the handshake attribute, and with a handshake record
    that has no [tv_sec]. *)
Definition peer_C_bare : wgpeer := Sim.peer "C" None.
Definition peer_C : wgpeer := Sim.peer "C" (Some ∅).

Definition interfaces : list (string * Z) := [("wg-d", 7); ("vx-d", 8)].

Definition kernel_with (links : list (string * Z)) (peers : list wgpeer)
           (routes : list (string * Z)) (fdb : list (Z * string * Z))
  : Sim.state :=
  {| Sim.links := links; Sim.wg_peers := [("wg-d", peers)];
     Sim.routes := routes; Sim.fdb := fdb |}.

Definition world_of (k : Sim.state) : @world unit Sim.state :=
  Sim.start k T_us.

(** The kernel requests of a trace. *)
Definition requests (w : @world unit Sim.state) : list call :=
  flat_map (fun ev => match ev with Call c => [c] | Log _ _ _ => [] end)
           (trace w).

Definition client (key : string) (remove : bool) : WireGuardClient :=
  {| public_key := key; domain := "d"; remove := remove |}.

Definition golden_addr : string := "fe80::49:58ff:fe21:d626".

End Scenario.

Import Scenario.

(** A sweep over two stale peers on a kernel without [vx-d]; [one_addr] is
    the address of [key_one]. *)
Definition one_addr : string := "fe80::5d:79ff:fea4:2cfd".

Definition sweep_peers : list wgpeer :=
  [Sim.peer golden_key (handshake_at (T - hours 4));
   Sim.peer key_one (handshake_at (T - hours 5))].

Definition sweep_world : @world unit Sim.state :=
  world_of (kernel_with [("wg-d", 7)] sweep_peers
              [(golden_addr +:+ "/128", 7); (one_addr +:+ "/128", 7)] []).

(** ** Vocabulary of the further properties *)

(** Lines 38 to 42 of [lladdr]: the pseudo-MAC handed to [mac2eui64]. *)
Definition current_mac_addr (public_key : string) : result string :=
  let? key_bytes := encode_ascii public_key in
  let hashed_key := hexdigest (key_bytes ++ ["010"%byte]) in
  let hash_as_list := wrap hashed_key 2 in
  Ok (String.concat ":" ("02" :: firstn 5 hash_as_list)).

Definition route_command (c : WireGuardClient) : string :=
  if remove c then "del" else "replace".

Definition fdb_command (c : WireGuardClient) : string :=
  if remove c then "del" else "append".

(** The requests [link_handler] may send for the client [c]. *)
Definition link_request (c : WireGuardClient) (q : call) : Prop :=
  match q with
  | WgSet ifname peer =>
      ifname = wg_interface c
      /\ exists addr, lladdr c = Ok addr /\ peer = the_peer c addr
  | LinkLookup ifname => ifname = wg_interface c \/ ifname = vx_interface c
  | IpRoute command dst _ => command = route_command c /\ lladdr c = Ok dst
  | IpFdb command _ mac dst _ =>
      command = fdb_command c /\ mac = "00:00:00:00:00:00"
      /\ exists addr, lladdr c = Ok addr /\ dst = re_sub_prefixlen "" addr
  | WgInfo _ => False
  end.

Definition is_wg_set (q : call) : Prop :=
  match q with
  | WgSet _ _ => True
  | _ => False
  end.

(** The requests of [route_handler] for [c]. *)
Definition route_request (c : WireGuardClient) (q : call) : Prop :=
  match q with
  | LinkLookup ifname => ifname = wg_interface c
  | IpRoute command dst _ => command = route_command c /\ lladdr c = Ok dst
  | _ => False
  end.

(** The requests of [bridge_fdb_handler] for [c]. *)
Definition fdb_request (c : WireGuardClient) (q : call) : Prop :=
  match q with
  | LinkLookup ifname => ifname = vx_interface c \/ ifname = wg_interface c
  | IpFdb command _ mac dst _ =>
      command = fdb_command c /\ mac = "00:00:00:00:00:00"
      /\ exists addr, lladdr c = Ok addr /\ dst = re_sub_prefixlen "" addr
  | _ => False
  end.

(** The requests of the Route and the Bridge FDB adapter together. *)
Definition after_set_request (c : WireGuardClient) (q : call) : Prop :=
  link_request c q /\ ~ is_wg_set q.

(** The requests a sweep of [domain] may send: the query of [wg-domain],
    lookups of the two interfaces, and removals. *)
Definition sweep_request (domain : string) (q : call) : Prop :=
  match q with
  | WgInfo ifname => ifname = "wg-" +:+ domain
  | WgSet ifname peer => ifname = "wg-" +:+ domain /\ spec_remove peer = true
  | LinkLookup ifname =>
      ifname = "wg-" +:+ domain \/ ifname = "vx-" +:+ domain
  | IpRoute command _ _ => command = "del"
  | IpFdb command _ _ _ _ => command = "del"
  end.

(** The keys of an outcome map. *)
Definition outcome_keys : gset string := {["Wireguard"; "Route"; "Bridge FDB"]}.

Section Footprints.

Context {reply K : Type}.

(** The kernel requests among the events [evs], in order. *)
Definition calls_of (evs : list (@event reply)) : list call :=
  flat_map (fun ev => match ev with Call c => [c] | Log _ _ _ => [] end) evs.

(** [P] holds of every request among the events. *)
Definition requests_only (P : call -> Prop) (ev : @event reply) : Prop :=
  match ev with
  | Call q => P q
  | Log _ _ _ => True
  end.

(** The event is a request, and [P] holds of it. *)
Definition calls_only (P : call -> Prop) (ev : @event reply) : Prop :=
  match ev with
  | Call q => P q
  | Log _ _ _ => False
  end.

(** Every run of [m] adds only events that satisfy [P]. *)
Definition adds {A} (P : @event reply -> Prop) (m : @M reply K A) : Prop :=
  forall w r w', m w = (r, w') ->
    exists evs, extends w w' evs /\ Forall P evs.

End Footprints.

(** A kernel that answers every request except the route request, during
    which the process is interrupted. *)
Definition interrupting (c : call) : unit -> result (@answer unit c) * unit :=
  match c with
  | WgSet _ _ => fun k => (Ok tt, k)
  | WgInfo _ => fun k => (Ok [], k)
  | LinkLookup _ => fun k => (Ok [1], k)
  | IpRoute _ _ _ => fun k => (Raise KeyboardInterrupt, k)
  | IpFdb _ _ _ _ _ => fun k => (Ok tt, k)
  end.

Definition interrupted_world : @world unit unit := World tt T_us [].


(** A kernel on which the sweep of the two stale peers goes through. *)
Definition clean_sweep_world : @world unit Sim.state :=
  world_of (kernel_with interfaces sweep_peers
              [(golden_addr +:+ "/128", 7); (one_addr +:+ "/128", 7)]
              [(8, golden_addr, 7); (8, one_addr, 7)]).

(** * Properties *)

(** ** The models against known values *)

(** The test suite of RFC 1321. *)
Example md5_empty :
  hexdigest [] = "d41d8cd98f00b204e9800998ecf8427e".
Proof. vm_compute. reflexivity. Qed.

Example md5_abc :
  hexdigest (list_byte_of_string "abc") = "900150983cd24fb0d6963f7d28e17f72".
Proof. vm_compute. reflexivity. Qed.

Example md5_message_digest :
  hexdigest (list_byte_of_string "message digest")
  = "f96b697d7cb7938d525a2f31aaf161d0".
Proof. vm_compute. reflexivity. Qed.

Example md5_two_blocks :
  hexdigest (list_byte_of_string
    "12345678901234567890123456789012345678901234567890123456789012345678901234567890")
  = "57edf4a22be3c955ac49da2e2107b67a".
Proof. vm_compute. reflexivity. Qed.

Example wrap_pairs : wrap "0123456789abcdef" 2
  = ["01"; "23"; "45"; "67"; "89"; "ab"; "cd"; "ef"].
Proof. reflexivity. Qed.

Example re_sub_replaces_prefixlen :
  re_sub_prefixlen "/128" "fe80::1/10" = "fe80::1/128"
  /\ re_sub_prefixlen "" "fe80::1/128" = "fe80::1"
  /\ re_sub_prefixlen "/128" "fe80::1" = "fe80::1".
Proof. repeat split. Qed.

Example ipv6_str_compresses :
  ipv6_str 0 = "::" /\ ipv6_str 1 = "::1"
  /\ network_str link_local = "fe80::/10"
  /\ ipv6_str (0x20010db8 * 2 ^ 96 + 2 ^ 48 + 1) = "2001:db8::1:0:0:1".
Proof. vm_compute. repeat split. Qed.

Example mac2eui64_example :
  mac2eui64 "02:49:58:21:d6:26" link_local = Ok "fe80::49:58ff:fe21:d626/10".
Proof. vm_compute. reflexivity. Qed.

Example decode_utf8_rejects :
  decode_utf8 (list_byte_of_string "wg") = Ok "wg"
  /\ decode_utf8 [xc0; x80] = Raise UnicodeDecodeError.
Proof. vm_compute. split; reflexivity. Qed.

(** ** Hexadecimal digits *)

Ltac digit_cases d :=
  let H := fresh in
  assert (H : d = 0 \/ d = 1 \/ d = 2 \/ d = 3 \/ d = 4 \/ d = 5 \/ d = 6
              \/ d = 7 \/ d = 8 \/ d = 9 \/ d = 10 \/ d = 11 \/ d = 12
              \/ d = 13 \/ d = 14 \/ d = 15) by lia;
  repeat (destruct H as [H | H]); subst d.

Lemma hexval_hexdigit d : 0 <= d < 16 -> hexval (hexdigit d) = Some d.
Proof. intros Hd. digit_cases d; reflexivity. Qed.

Lemma hexdigit_neq d c :
  0 <= d < 16 -> hexval c = None -> (hexdigit d =? c)%char = false.
Proof.
  intros Hd Hc. destruct (Ascii.eqb_spec (hexdigit d) c) as [<- | ]; [| done].
  rewrite hexval_hexdigit in Hc by done. discriminate.
Qed.

Lemma has_char_app c s t :
  has_char c (s +:+ t) = has_char c s || has_char c t.
Proof. induction s as [| x s IH]; simpl; [done |]. by rewrite IH, orb_assoc. Qed.

Lemma hex2_avoids b c :
  0 <= b < 256 -> hexval c = None -> has_char c (hex2 b) = false.
Proof.
  intros Hb Hc. unfold hex2; simpl.
  rewrite !hexdigit_neq; try done.
  - apply Z.mod_pos_bound; lia.
  - split; [apply Z.div_pos; lia | apply Z.div_lt_upper_bound; lia].
Qed.

Lemma parse_octet_hex2 b : 0 <= b < 256 -> parse_octet (hex2 b) = Some b.
Proof.
  intros Hb. unfold parse_octet, hex2.
  rewrite !hexval_hexdigit.
  - f_equal. pose proof (Z.div_mod b 16). lia.
  - apply Z.mod_pos_bound; lia.
  - split; [apply Z.div_pos; lia | apply Z.div_lt_upper_bound; lia].
Qed.

(** ** Splitting and joining *)

Lemma split_on_avoids sep s : has_char sep s = false -> split_on sep s = [s].
Proof.
  induction s as [| x s IH]; simpl; [done |].
  intros [Hx Hs]%orb_false_elim. rewrite Hx, IH; done.
Qed.

Lemma split_on_app sep s t :
  has_char sep s = false ->
  split_on sep (s +:+ String sep t) = s :: split_on sep t.
Proof.
  induction s as [| x s IH]; simpl.
  - intros _. by rewrite Ascii.eqb_refl.
  - intros [Hx Hs]%orb_false_elim. rewrite Hx, IH; done.
Qed.

Lemma split_on_concat sep x xs :
  Forall (fun s => has_char sep s = false) (x :: xs) ->
  split_on sep (String.concat (String sep EmptyString) (x :: xs)) = x :: xs.
Proof.
  revert x. induction xs as [| y ys IH]; intros x Hall.
  - simpl. apply split_on_avoids. by inversion Hall.
  - inversion Hall as [| ? ? Hx Hrest]; subst.
    change (String.concat (String sep EmptyString) (x :: y :: ys))
      with (x +:+ String sep (String.concat (String sep EmptyString) (y :: ys))).
    rewrite split_on_app by done. by rewrite IH.
Qed.

(** ** The digest *)

Lemma bytes_le_octets n x : Forall octet (Md5.bytes_le n x).
Proof.
  unfold Md5.bytes_le. apply List.Forall_map, List.Forall_forall.
  intros i _. unfold octet.
  change 255 with (Z.ones 8). rewrite Z.land_ones by lia.
  apply Z.mod_pos_bound. lia.
Qed.

Lemma digest_octets msg : Forall octet (Md5.digest msg).
Proof.
  unfold Md5.digest. destruct (Md5.digest_state _) as [a b c d].
  repeat apply Forall_app_2; apply bytes_le_octets.
Qed.

Lemma digest_length msg : List.length (Md5.digest msg) = 16%nat.
Proof.
  unfold Md5.digest. destruct (Md5.digest_state _) as [a b c d]. reflexivity.
Qed.

Lemma hexcat_cons b bs :
  hexcat (b :: bs)
  = String (hexdigit (b / 16)) (String (hexdigit (b mod 16)) (hexcat bs)).
Proof. reflexivity. Qed.

Lemma hexcat_length bs : String.length (hexcat bs) = (2 * List.length bs)%nat.
Proof.
  induction bs as [| b bs IH]; [done |].
  rewrite hexcat_cons. simpl. rewrite IH. lia.
Qed.

Lemma wrap_pieces_hexcat bs fuel :
  (List.length bs <= fuel)%nat -> wrap_pieces fuel 2 (hexcat bs) = map hex2 bs.
Proof.
  revert fuel. induction bs as [| b bs IH]; intros fuel Hfuel.
  - by destruct fuel.
  - destruct fuel as [| fuel]; simpl in Hfuel; [lia |].
    rewrite hexcat_cons. simpl. f_equal. apply IH. lia.
Qed.

Lemma wrap_hexdigest msg : wrap (hexdigest msg) 2 = map hex2 (Md5.digest msg).
Proof.
  unfold wrap, hexdigest. fold (hexcat (Md5.digest msg)).
  apply wrap_pieces_hexcat. rewrite hexcat_length. lia.
Qed.

(** The MAC text built by [lladdr] reads back as the octets it was built
    from. *)
Lemma parse_mac_join octets :
  List.length octets = 6%nat -> Forall octet octets ->
  parse_mac (String.concat ":" (map hex2 octets)) = Some octets.
Proof.
  intros Hlen Hall.
  destruct octets as [| o0 [| o1 [| o2 [| o3 [| o4 [| o5 [| ? ?]]]]]]];
    try discriminate.
  unfold parse_mac. cbn [map].
  rewrite (split_on_concat ":"%char).
  - repeat match goal with H : Forall _ (_ :: _) |- _ => inversion H; clear H; subst end.
    cbn -[parse_octet hex2]. rewrite !parse_octet_hex2 by assumption.
    reflexivity.
  - repeat match goal with H : Forall _ (_ :: _) |- _ => inversion H; clear H; subst end.
    repeat constructor; by apply hex2_avoids.
Qed.

(** ** The address of a pseudo-MAC under [fe80::/10] *)

Lemma hextets_link_local b0 b1 b2 b3 b4 :
  octet b0 -> octet b1 -> octet b2 -> octet b3 -> octet b4 ->
  hextets (network_address link_local + modified_eui64 [2; b0; b1; b2; b3; b4])
  = [0xfe80; 0; 0; 0; b0; 256 * b1 + 255; 0xfe00 + b2; 256 * b3 + b4].
Proof.
  unfold octet. intros H0 H1 H2 H3 H4.
  unfold hextets, link_local, modified_eui64, network_address.
  cbn [map seq fold_left]. 
  change (Z.lxor 2 2) with 0.
  repeat (apply (f_equal2 cons));
    [ cbn [Z.of_nat Z.sub Z.mul]; simpl (2 ^ _); Z.div_mod_to_equations; lia .. | reflexivity ].
Qed.

Lemma compress_link_local h4 h5 h6 h7 :
  h5 <> 0 -> h6 <> 0 ->
  compress_hextets [0xfe80; 0; 0; 0; h4; h5; h6; h7]
  = "fe80::" +:+ String.concat ":" (map hextet_str (link_local_groups h4 h5 h6 h7)).
Proof.
  intros H5 H6. unfold compress_hextets, link_local_groups.
  destruct h4, h5, h6, h7; try contradiction;
    cbn -[hextet_str]; change (hextet_str 65152) with "fe80"; reflexivity.
Qed.

(** ** The text of a hextet determines it *)

Lemma hextet_digits h :
  hextet h ->
  exists d3 d2 d1 d0,
    (0 <= d3 < 16 /\ 0 <= d2 < 16 /\ 0 <= d1 < 16 /\ 0 <= d0 < 16) /\
    h = 4096 * d3 + 256 * d2 + 16 * d1 + d0 /\
    hextet_str h
    = string_of_list_ascii (map hexdigit (strip0 [d3; d2; d1; d0])).
Proof.
  intros Hh. unfold hextet in Hh.
  exists (h / 4096 mod 16), (h / 256 mod 16), (h / 16 mod 16), (h mod 16).
  split; [| split; [| reflexivity]]; Z.div_mod_to_equations; lia.
Qed.

Lemma parse_hex_hextet h : hextet h -> parse_hex (hextet_str h) = Some h.
Proof.
  intros (d3 & d2 & d1 & d0 & Hd & -> & ->)%hextet_digits.
  unfold parse_hex.
  destruct d3, d2, d1; try lia;
    cbn [strip0 Z.eqb map string_of_list_ascii parse_hex_from];
    rewrite ?hexval_hexdigit by lia; cbv beta iota; f_equal; lia.
Qed.

Lemma hextet_str_avoids h c :
  hextet h -> hexval c = None -> has_char c (hextet_str h) = false.
Proof.
  intros (d3 & d2 & d1 & d0 & Hd & -> & ->)%hextet_digits Hc.
  destruct d3, d2, d1; try lia;
    cbn [strip0 Z.eqb map string_of_list_ascii has_char];
    rewrite ?hexdigit_neq by (done || lia); reflexivity.
Qed.

Lemma hextet_strs_inj g g' :
  Forall hextet g -> Forall hextet g' ->
  map hextet_str g = map hextet_str g' -> g = g'.
Proof.
  intros Hg. revert g'. induction Hg as [| h g Hh Hg IH]; intros g' Hg' Heq.
  - by destruct g'.
  - destruct Hg' as [| h' g' Hh' Hg']; [discriminate |].
    injection Heq as Hhead Htail. f_equal; [| by apply IH].
    apply (f_equal parse_hex) in Hhead.
    rewrite !parse_hex_hextet in Hhead by done. congruence.
Qed.

Lemma concat_hextets_inj g g' :
  g <> [] -> g' <> [] -> Forall hextet g -> Forall hextet g' ->
  String.concat ":" (map hextet_str g) = String.concat ":" (map hextet_str g') ->
  g = g'.
Proof.
  intros Hne Hne' Hg Hg' Heq.
  apply hextet_strs_inj; try done.
  assert (Hsplit : forall l, l <> [] -> Forall hextet l ->
            split_on ":" (String.concat ":" (map hextet_str l))
            = map hextet_str l).
  { intros [| x l] Hl Hall; [done |]. cbn [map].
    apply (split_on_concat ":"%char).
    change (hextet_str x :: map hextet_str l) with (map hextet_str (x :: l)).
    apply List.Forall_map. eapply List.Forall_impl; [| exact Hall].
    intros h Hh. by apply hextet_str_avoids. }
  rewrite <- (Hsplit g), <- (Hsplit g') by done. by rewrite Heq.
Qed.

Lemma str_length_app (s t : string) :
  String.length (s +:+ t) = (String.length s + String.length t)%nat.
Proof. induction s as [| c s IH]; simpl; [done |]. by rewrite IH. Qed.

Lemma string_app_inv_tail (s s' t : string) : s +:+ t = s' +:+ t -> s = s'.
Proof.
  intros Heq. apply (f_equal String.length) in Heq as Hlen.
  rewrite !str_length_app in Hlen.
  revert s' Heq Hlen. induction s as [| c s IH]; intros [| c' s'] Heq Hlen;
    simpl in Hlen; try lia; [done |].
  injection Heq as -> Heq. f_equal. apply IH; [done | lia].
Qed.

(** ** The reference derivation *)

Lemma reference_octets_shape k :
  exists b0 b1 b2 b3 b4,
    reference_octets k = [b0; b1; b2; b3; b4] /\
    octet b0 /\ octet b1 /\ octet b2 /\ octet b3 /\ octet b4.
Proof.
  unfold reference_octets.
  set (msg := list_byte_of_string k ++ [newline]).
  pose proof (digest_length msg) as Hlen.
  pose proof (digest_octets msg) as Hall.
  destruct (Md5.digest msg) as [| b0 [| b1 [| b2 [| b3 [| b4 rest]]]]];
    try discriminate.
  exists b0, b1, b2, b3, b4. split; [reflexivity |].
  repeat match goal with
         | H : Forall _ (_ :: _) |- _ => inversion H; clear H; subst
         end.
  tauto.
Qed.

Lemma reference_address_text k :
  exists b0 b1 b2 b3 b4,
    reference_octets k = [b0; b1; b2; b3; b4] /\
    (octet b0 /\ octet b1 /\ octet b2 /\ octet b3 /\ octet b4) /\
    ipv6_str (reference_address k)
    = "fe80::" +:+
      String.concat ":" (map hextet_str
        (link_local_groups b0 (256 * b1 + 255) (0xfe00 + b2) (256 * b3 + b4))).
Proof.
  destruct (reference_octets_shape k)
    as (b0 & b1 & b2 & b3 & b4 & Hoct & H0 & H1 & H2 & H3 & H4).
  exists b0, b1, b2, b3, b4. split; [done |]. split; [tauto |].
  unfold ipv6_str, reference_address, reference_mac. rewrite Hoct.
  rewrite hextets_link_local by done.
  unfold octet in *. apply compress_link_local; lia.
Qed.

Lemma link_local_groups_hextets b0 b1 b2 b3 b4 :
  octet b0 -> octet b1 -> octet b2 -> octet b3 -> octet b4 ->
  Forall hextet
    (link_local_groups b0 (256 * b1 + 255) (0xfe00 + b2) (256 * b3 + b4)).
Proof.
  unfold octet, link_local_groups, hextet. intros.
  destruct (b0 =? 0); repeat constructor; lia.
Qed.

Lemma reference_address_avoids k c :
  hexval c = None -> c <> ":"%char ->
  has_char c (ipv6_str (reference_address k)) = false.
Proof.
  intros Hc Hcolon.
  destruct (reference_address_text k)
    as (b0 & b1 & b2 & b3 & b4 & _ & (H0 & H1 & H2 & H3 & H4) & ->).
  pose proof (link_local_groups_hextets b0 b1 b2 b3 b4 H0 H1 H2 H3 H4) as Hg.
  rewrite has_char_app.
  assert (Hfe : has_char c "fe80::" = false).
  { cbn [has_char]. rewrite !orb_false_r.
    assert (Hne : forall x, x <> c -> (x =? c)%char = false)
      by (intros x Hx; by apply Ascii.eqb_neq).
    rewrite !Hne; try done; intros <-; (done || discriminate Hc). }
  rewrite Hfe. cbn [orb].
  induction Hg as [| h g Hh Hg IH]; [done |].
  destruct g as [| h' g].
  - cbn [map String.concat]. by apply hextet_str_avoids.
  - change (String.concat ":" (map hextet_str (h :: h' :: g)))
      with (hextet_str h +:+ String ":" (String.concat ":" (map hextet_str (h' :: g)))).
    rewrite has_char_app, hextet_str_avoids by done. cbn [has_char orb].
    rewrite IH. by rewrite (proj2 (Ascii.eqb_neq _ _)).
Qed.

(** ** [re.sub] on an address followed by its prefix length *)

Lemma str_app_nil_r (s : string) : s +:+ "" = s.
Proof.
  induction s as [| c s IH]; [done |].
  change (String c s +:+ "") with (String c (s +:+ "")). by rewrite IH.
Qed.

Lemma re_sub_prefixlen_10 repl s :
  has_char "/" s = false ->
  re_sub_prefixlen repl (s +:+ "/10") = s +:+ repl.
Proof.
  induction s as [| c s IH]; intros Hs.
  - cbn. apply str_app_nil_r.
  - cbn [has_char] in Hs. apply orb_false_elim in Hs as [Hc Hs].
    change (String c s +:+ "/10") with (String c (s +:+ "/10")).
    cbn [re_sub_prefixlen]. rewrite Hc. cbn [andb]. by rewrite IH.
Qed.

(** ** What [lladdr] computes *)

Lemma lladdr_ascii c :
  is_ascii (public_key c) = true ->
  lladdr c = Ok (reference_lladdr (public_key c)).
Proof.
  intros Hascii. unfold lladdr, encode_ascii. rewrite Hascii.
  cbn [rbind]. rewrite wrap_hexdigest, List.firstn_map.
  fold newline. fold (reference_octets (public_key c)).
  change ("02" :: map hex2 (reference_octets (public_key c)))
    with (map hex2 (reference_mac (public_key c))).
  destruct (reference_octets_shape (public_key c))
    as (b0 & b1 & b2 & b3 & b4 & Hoct & H0 & H1 & H2 & H3 & H4).
  unfold mac2eui64. rewrite parse_mac_join.
  - cbn [rbind]. fold (reference_address (public_key c)).
    change (pretty (prefixlen link_local)) with "10".
    rewrite re_sub_prefixlen_10 by (by apply reference_address_avoids).
    reflexivity.
  - unfold reference_mac. by rewrite Hoct.
  - unfold reference_mac. rewrite Hoct. unfold octet in *.
    repeat constructor; lia.
Qed.

Lemma lladdr_non_ascii c :
  is_ascii (public_key c) = false -> lladdr c = Raise UnicodeEncodeError.
Proof. intros Hascii. unfold lladdr, encode_ascii. by rewrite Hascii. Qed.

Lemma link_local_groups_nonempty h4 h5 h6 h7 : link_local_groups h4 h5 h6 h7 <> [].
Proof. unfold link_local_groups. by destruct (h4 =? 0). Qed.

Lemma link_local_groups_inj b0 b1 b2 b3 b4 c0 c1 c2 c3 c4 :
  octet b0 -> octet b1 -> octet b2 -> octet b3 -> octet b4 ->
  octet c0 -> octet c1 -> octet c2 -> octet c3 -> octet c4 ->
  link_local_groups b0 (256 * b1 + 255) (0xfe00 + b2) (256 * b3 + b4)
  = link_local_groups c0 (256 * c1 + 255) (0xfe00 + c2) (256 * c3 + c4) ->
  [b0; b1; b2; b3; b4] = [c0; c1; c2; c3; c4].
Proof.
  unfold octet, link_local_groups. intros.
  destruct (Z.eqb_spec b0 0), (Z.eqb_spec c0 0);
    simplify_eq/=; repeat f_equal; lia.
Qed.

(** Two ASCII keys get the same address exactly when their digests agree on
    the first five octets. *)
Lemma lladdr_eq_iff c1 c2 :
  is_ascii (public_key c1) = true -> is_ascii (public_key c2) = true ->
  lladdr c1 = lladdr c2 <->
  reference_octets (public_key c1) = reference_octets (public_key c2).
Proof.
  intros Ha1 Ha2. rewrite !lladdr_ascii by done. split.
  - intros [= Heq]. unfold reference_lladdr in Heq.
    apply string_app_inv_tail in Heq.
    destruct (reference_address_text (public_key c1))
      as (b0 & b1 & b2 & b3 & b4 & -> & (? & ? & ? & ? & ?) & Ht1).
    destruct (reference_address_text (public_key c2))
      as (d0 & d1 & d2 & d3 & d4 & -> & (? & ? & ? & ? & ?) & Ht2).
    rewrite Ht1, Ht2 in Heq. apply (inj (String.app "fe80::")) in Heq.
    apply concat_hextets_inj in Heq;
      auto using link_local_groups_nonempty, link_local_groups_hextets.
    by apply link_local_groups_inj.
  - intros Heq. unfold reference_lladdr, reference_address, reference_mac.
    by rewrite Heq.
Qed.

(** ** Address derivation: the statements *)

Example lladdr_golden d r :
  lladdr {| public_key := golden_key; domain := d; remove := r |}
  = Ok "fe80::49:58ff:fe21:d626/128".
Proof. vm_compute. reflexivity. Qed.

(** C1, as amended: for every public key [k] made of ASCII characters, and
    every domain and removal flag, [lladdr] returns the reference derivation
    of section 4.1 (MD5 of the key's bytes and a newline, the first five
    digest octets behind [02], modified EUI-64 under [fe80::/10]); the text
    it returns is an address followed by [/128], and it is the same for
    every domain and flag. *)
Theorem lladdr_is_reference (k d : string) (r : bool) :
  is_ascii k = true ->
  lladdr {| public_key := k; domain := d; remove := r |}
  = Ok (reference_lladdr k)
  /\ (exists addr,
        reference_lladdr k = addr +:+ "/128" /\ has_char "/" addr = false)
  /\ (forall d' r',
        lladdr {| public_key := k; domain := d'; remove := r' |}
        = lladdr {| public_key := k; domain := d; remove := r |}).
Proof.
  intros Hascii. split; [| split].
  - by apply (lladdr_ascii {| public_key := k; domain := d; remove := r |}).
  - exists (ipv6_str (reference_address k)). split; [reflexivity |].
    by apply reference_address_avoids.
  - reflexivity.
Qed.

(** The golden key. *)
Lemma lladdr_is_reference_witness :
  is_ascii golden_key = true
  /\ lladdr {| public_key := golden_key; domain := "d"; remove := false |}
     = Ok (reference_lladdr golden_key).
Proof.
  split; [reflexivity |].
  apply (proj1 (lladdr_is_reference golden_key "d" false eq_refl)).
Defined.

(** C1 fails as stated: for a key with a character outside ASCII the
    derivation raises, while the reference derivation over the key's UTF-8
    bytes yields an address. *)
Lemma lladdr_is_reference_counterexample :
  let c := {| public_key := "é"; domain := "d"; remove := false |} in
  lladdr c = Raise UnicodeEncodeError
  /\ reference_lladdr "é" = "fe80::88:dfff:fe14:e695/128"
  /\ lladdr c <> Ok (reference_lladdr "é").
Proof. vm_compute. repeat split; discriminate. Qed.

(** C7, as amended: for every key made of ASCII characters the derivation
    returns an address and raises nothing; a key with any other character
    makes it raise [UnicodeEncodeError]. *)
Theorem lladdr_succeeds_on_ascii (c : WireGuardClient) :
  (is_ascii (public_key c) = true ->
   exists addr, lladdr c = Ok addr /\ forall e, lladdr c <> Raise e)
  /\ (is_ascii (public_key c) = false -> lladdr c = Raise UnicodeEncodeError).
Proof.
  split; [| apply lladdr_non_ascii].
  intros Hascii. exists (reference_lladdr (public_key c)).
  rewrite lladdr_ascii by done. split; [reflexivity | discriminate].
Qed.

Lemma lladdr_succeeds_on_ascii_witness :
  is_ascii golden_key = true
  /\ exists addr,
       lladdr {| public_key := golden_key; domain := "ffmuc"; remove := true |}
       = Ok addr.
Proof.
  split; [reflexivity |].
  destruct (proj1 (lladdr_succeeds_on_ascii
                     {| public_key := golden_key; domain := "ffmuc";
                        remove := true |})
                  eq_refl) as [addr [Haddr _]].
  exists addr. exact Haddr.
Defined.

(** C7 fails as stated: a string input on which the derivation raises. *)
Lemma lladdr_succeeds_counterexample :
  lladdr {| public_key := "Zürich"; domain := "d"; remove := false |}
  = Raise UnicodeEncodeError.
Proof. reflexivity. Qed.

(** C9, as amended: two keys made of ASCII characters get different
    addresses exactly when the MD5 digests of key and newline differ within
    their first five octets, and the same address exactly when these octets
    agree. *)
Theorem lladdr_differ_iff (c1 c2 : WireGuardClient) :
  is_ascii (public_key c1) = true -> is_ascii (public_key c2) = true ->
  (lladdr c1 <> lladdr c2 <->
   reference_octets (public_key c1) <> reference_octets (public_key c2))
  /\ (lladdr c1 = lladdr c2 <->
      reference_octets (public_key c1) = reference_octets (public_key c2)).
Proof. intros Ha1 Ha2. by rewrite lladdr_eq_iff. Qed.

Lemma lladdr_differ_iff_witness :
  let c1 := {| public_key := golden_key; domain := "d"; remove := false |} in
  let c2 := {| public_key := key_one; domain := "d"; remove := false |} in
  is_ascii golden_key = true /\ is_ascii key_one = true
  /\ lladdr c1 <> lladdr c2.
Proof.
  intros c1 c2. split; [reflexivity |]. split; [reflexivity |].
  apply (proj2 (proj1 (lladdr_differ_iff c1 c2 eq_refl eq_refl))).
  vm_compute. discriminate.
Defined.

(** C9 fails as stated: two distinct keys, both well-formed WireGuard public
    keys, with one and the same address. *)
Lemma lladdr_collision :
  key_one <> key_two
  /\ lladdr {| public_key := key_one; domain := "d"; remove := false |}
     = lladdr {| public_key := key_two; domain := "d"; remove := false |}.
Proof. split; [discriminate | vm_compute; reflexivity]. Qed.

(** ** Runs of the adapters and of the reconciler *)

Section NetlinkRuns.

Context {reply K : Type}.
Variable perform : forall c : call, K -> result (@answer reply c) * K.

Abbreviation world := (@world reply K).
Abbreviation outcome := (@outcome reply).

Lemma request_run (c : call) (w : world) :
  request perform c w
  = (fst (perform c (kernel w)),
     World (snd (perform c (kernel w))) (clock w) (trace w ++ [Call c])).
Proof. unfold request. by destruct (perform c (kernel w)). Qed.

Lemma update_wireguard_peer_run c w :
  update_wireguard_peer perform c w
  = match lladdr c with
    | Ok addr => request perform (WgSet (wg_interface c) (the_peer c addr)) w
    | Raise e => (Raise e, w)
    end.
Proof.
  unfold update_wireguard_peer, mbind, lift. by destruct (lladdr c).
Qed.

Lemma update_wireguard_peer_events c w r w' :
  update_wireguard_peer perform c w = (r, w') ->
  (exists e, lladdr c = Raise e /\ r = Raise e /\ w' = w)
  \/ (exists addr, lladdr c = Ok addr
        /\ extends w w' [Call (WgSet (wg_interface c) (the_peer c addr))]).
Proof.
  rewrite update_wireguard_peer_run. destruct (lladdr c) as [addr | e].
  - rewrite request_run. intros [= <- <-]. right. by exists addr.
  - intros [= <- <-]. left. by exists e.
Qed.

(** [route_handler] starts by looking the WireGuard interface up. *)
Lemma route_handler_events c w addr :
  lladdr c = Ok addr ->
  exists evs,
    extends w (snd (route_handler perform c w))
            (Call (LinkLookup (wg_interface c)) :: evs).
Proof.
  intros Haddr. unfold route_handler, mbind, lift, extends. rewrite Haddr.
  rewrite request_run. cbn [fst snd].
  destruct (fst (perform (LinkLookup (wg_interface c)) (kernel w)))
    as [[| oif found] | e]; cbn [item0]; try (by exists []).
  rewrite request_run. cbn [snd trace].
  eexists [_]. by rewrite <- app_assoc.
Qed.

(** [bridge_fdb_handler] starts by looking the VXLAN interface up. *)
Lemma bridge_fdb_handler_events c w :
  exists evs,
    extends w (snd (bridge_fdb_handler perform c w))
            (Call (LinkLookup (vx_interface c)) :: evs).
Proof.
  unfold bridge_fdb_handler, mbind, lift, extends.
  rewrite request_run. cbn [fst snd].
  destruct (fst (perform (LinkLookup (vx_interface c)) (kernel w)))
    as [[| ifindex found] | e]; cbn [item0]; try (by exists []).
  destruct (lladdr c) as [addr | e]; [| by exists []].
  rewrite request_run. cbn [fst snd kernel clock trace].
  destruct (fst (perform (LinkLookup (wg_interface c)) _))
    as [[| nda found'] | e]; cbn [item0];
    try (eexists [_]; by rewrite <- app_assoc).
  rewrite request_run. cbn [snd trace].
  eexists [_; _]. by rewrite <- !app_assoc.
Qed.

Lemma link_handler_run c w :
  link_handler perform c w
  = match update_wireguard_peer perform c w with
    | (Raise e, w1) => (Raise e, w1)
    | (Ok r1, w1) =>
        let results : gmap string outcome := <["Wireguard" := Returned r1]> ∅ in
        match route_handler perform c (emit (handling_links c) w1) with
        | (Ok r2, w2) =>
            fdb_step perform c (<["Route" := Returned r2]> results)
                     (emit (updated_route c) w2)
        | (Raise e, w2) =>
            if is_Exception e then
              fdb_step perform c (<["Route" := Caught e]> results)
                       (emit (failed_route c e) w2)
            else (Raise e, w2)
        end
    end.
Proof.
  unfold link_handler, fdb_step, mbind, try_except, log, mret.
  destruct (update_wireguard_peer perform c w) as [[r1 | e1] w1]; [| done].
  fold (@handling_links reply c).
  destruct (route_handler perform c (emit (handling_links c) w1))
    as [[r2 | e2] w2].
  - by destruct (bridge_fdb_handler perform c _) as [[r3 | e3] w3].
  - destruct (is_Exception e2); [| done].
    by destruct (bridge_fdb_handler perform c _) as [[r3 | e3] w3].
Qed.

(** ** The reconciler: the statements *)

(** C3: when [update_wireguard_peer] raises, [link_handler] raises the same
    error and stops in the very world the WireGuard adapter left: the only
    event that can have been added is the [wg.set] request, so neither
    [route_handler] nor [bridge_fdb_handler] ran (each of them starts with an
    interface lookup) and nothing was logged. *)
Theorem link_handler_wireguard_error c w e w1 :
  update_wireguard_peer perform c w = (Raise e, w1) ->
  link_handler perform c w = (Raise e, w1)
  /\ exists evs,
       extends w w1 evs
       /\ Forall (fun ev => exists p, ev = Call (WgSet (wg_interface c) p)) evs.
Proof.
  intros Hwg. split.
  - by rewrite link_handler_run, Hwg.
  - apply update_wireguard_peer_events in Hwg
      as [(e' & _ & _ & ->) | (addr & _ & Hext)].
    + exists []. split; [unfold extends; by rewrite app_nil_r | constructor].
    + eexists. split; [exact Hext |]. repeat constructor. by eexists.
Qed.

(** C4: when [route_handler] raises an exception after the WireGuard adapter
    succeeded, [link_handler] logs it and goes on with
    [bridge_fdb_handler], whose first request follows the error record in
    the trace; the outcome map, whenever one is returned, holds the caught
    exception itself under ["Route"]. *)
Theorem link_handler_route_error c w r1 w1 e w2 :
  update_wireguard_peer perform c w = (Ok r1, w1) ->
  route_handler perform c (emit (handling_links c) w1) = (Raise e, w2) ->
  is_Exception e = true ->
  link_handler perform c w
  = match bridge_fdb_handler perform c (emit (failed_route c e) w2) with
    | (Ok r3, w3) =>
        (Ok (<["Bridge FDB" := Returned r3]>
               (<["Route" := Caught e]> (<["Wireguard" := Returned r1]> ∅))),
         emit (updated_fdb c) w3)
    | (Raise e3, w3) => (Raise e3, w3)
    end
  /\ (exists evs,
        extends w2 (snd (link_handler perform c w))
                (failed_route c e :: Call (LinkLookup (vx_interface c)) :: evs))
  /\ (forall m w',
        link_handler perform c w = (Ok m, w') ->
        m !! "Route" = Some (Caught e)).
Proof.
  intros Hwg Hroute Hexc.
  assert (Hrun : link_handler perform c w
                 = fdb_step perform c (<["Route" := Caught e]>
                                 (<["Wireguard" := Returned r1]> ∅))
                            (emit (failed_route c e) w2))
    by (by rewrite link_handler_run, Hwg, Hroute, Hexc).
  rewrite Hrun. unfold fdb_step.
  destruct (bridge_fdb_handler_events c (emit (failed_route c e) w2))
    as [evs Hevs].
  destruct (bridge_fdb_handler perform c (emit (failed_route c e) w2))
    as [[r3 | e3] w3]; (split; [reflexivity |]); split.
  - exists (evs ++ [updated_fdb c]). unfold extends in *. cbn in *.
    rewrite Hevs. by rewrite <- !app_assoc.
  - intros m w' [= <- _]. by simplify_map_eq.
  - exists evs. unfold extends in *. cbn in *.
    rewrite Hevs. by rewrite <- !app_assoc.
  - intros m w' [=].
Qed.

(** C5: [link_handler] runs [update_wireguard_peer] first, then
    [route_handler] in the world the first left, then [bridge_fdb_handler]
    in the world the second left, whatever the client; a run that returns
    went through all three, their requests appear in the trace in this
    order, and the outcome map has the keys ["Wireguard"], ["Route"] and
    ["Bridge FDB"] and no other. *)
Theorem link_handler_order_and_keys c w :
  link_handler perform c w
  = match update_wireguard_peer perform c w with
    | (Raise e, w1) => (Raise e, w1)
    | (Ok r1, w1) =>
        let results : gmap string outcome := <["Wireguard" := Returned r1]> ∅ in
        match route_handler perform c (emit (handling_links c) w1) with
        | (Ok r2, w2) =>
            fdb_step perform c (<["Route" := Returned r2]> results)
                     (emit (updated_route c) w2)
        | (Raise e, w2) =>
            if is_Exception e then
              fdb_step perform c (<["Route" := Caught e]> results)
                       (emit (failed_route c e) w2)
            else (Raise e, w2)
        end
    end
  /\ forall m w',
      link_handler perform c w = (Ok m, w') ->
      dom m = {["Wireguard"; "Route"; "Bridge FDB"]}
      /\ exists r1 w1 r2 w2 r3 w3,
           update_wireguard_peer perform c w = (Ok r1, w1)
           /\ route_handler perform c (emit (handling_links c) w1) = (r2, w2)
           /\ absorbed r2 = true
           /\ bridge_fdb_handler perform c (emit (route_event c r2) w2)
              = (Ok r3, w3)
           /\ w' = emit (updated_fdb c) w3
           /\ m = <["Bridge FDB" := Returned r3]>
                    (<["Route" := route_outcome r2]>
                       (<["Wireguard" := Returned r1]> ∅))
           /\ exists p t2 t3,
                extends w w'
                  ([Call (WgSet (wg_interface c) p); handling_links c;
                    Call (LinkLookup (wg_interface c))] ++ t2
                   ++ [route_event c r2; Call (LinkLookup (vx_interface c))]
                   ++ t3 ++ [updated_fdb c]).
Proof.
  split; [apply link_handler_run |]. intros m w'.
  rewrite link_handler_run.
  destruct (update_wireguard_peer perform c w) as [[r1 | e1] w1] eqn:Hwg;
    [| discriminate].
  destruct (route_handler perform c (emit (handling_links c) w1))
    as [r2 w2] eqn:Hroute.
  intros Hrun.
  assert (Hstep : absorbed r2 = true
                  /\ fdb_step perform c (<["Route" := route_outcome r2]>
                                   (<["Wireguard" := Returned r1]> ∅))
                              (emit (route_event c r2) w2) = (Ok m, w')).
  { destruct r2 as [x | e]; cbn [absorbed route_outcome route_event] in *;
      [done |].
    by destruct (is_Exception e). }
  destruct Hstep as [Habs Hstep]. unfold fdb_step in Hstep.
  destruct (bridge_fdb_handler perform c (emit (route_event c r2) w2))
    as [[r3 | e3] w3] eqn:Hfdb; [| discriminate].
  injection Hstep as <- <-. split.
  { rewrite !dom_insert_L, dom_empty_L. set_solver. }
  exists r1, w1, r2, w2, r3, w3. repeat (split; [done |]).
  apply update_wireguard_peer_events in Hwg
    as [(e' & _ & [=] & _) | (addr & Haddr & Hext1)].
  destruct (route_handler_events c (emit (handling_links c) w1) addr Haddr)
    as [t2 Hext2].
  destruct (bridge_fdb_handler_events c (emit (route_event c r2) w2))
    as [t3 Hext3].
  rewrite Hroute in Hext2. rewrite Hfdb in Hext3.
  exists (the_peer c addr), t2, t3. unfold extends in *. cbn in *.
  rewrite Hext3, Hext2, Hext1. by rewrite <- !app_assoc.
Qed.

End NetlinkRuns.

(** ** The stale-peer detector *)

Section StalePeers.

Context {reply K : Type}.
Variable perform : forall c : call, K -> result (@answer reply c) * K.

Abbreviation world := (@world reply K).

Lemma collect_clients_run devices acc (w : world) :
  collect_clients devices acc w
  = (Ok (acc ++ reported_peers devices),
     World (kernel w) (clock w) (trace w ++ map got_clients devices)).
Proof.
  revert acc w. induction devices as [| d devices IH]; intros acc w.
  - cbn. rewrite !app_nil_r. by destruct w.
  - cbn [collect_clients]. unfold mbind, log. cbn [emit].
    rewrite IH. cbn [kernel clock trace map reported_peers flat_map].
    fold (@got_clients reply d) (reported_peers devices).
    unfold emit. cbn [kernel clock trace]. rewrite <- !app_assoc. cbn [app].
    f_equal. f_equal.
    destruct (WGDEVICE_A_PEERS d) as [[| p ps] |]; cbn [truthy default];
      rewrite <- ?app_assoc; reflexivity.
Qed.

Lemma find_stale_run iface (w : world) :
  find_stale_wireguard_clients perform iface w
  = match perform (WgInfo iface) (kernel w) with
    | (Ok devices, k) =>
        (stale_keys (cutoff_of (clock w)) (reported_peers devices),
         after_info iface devices k w)
    | (Raise e, k) =>
        (Raise e,
         World k (clock w) (trace w ++ [search_started iface; Call (WgInfo iface)]))
    end.
Proof.
  unfold find_stale_wireguard_clients, mbind, now, log, lift.
  rewrite request_run. cbn [emit kernel clock trace fst snd].
  destruct (perform (WgInfo iface) (kernel w)) as [[devices | e] k];
    cbn [fst snd].
  - rewrite collect_clients_run. cbn [kernel clock trace app].
    unfold after_info, emit. cbn [kernel clock trace].
    fold (@search_started reply iface) (@got_infos reply devices).
    by rewrite <- !app_assoc.
  - fold (@search_started reply iface). by rewrite <- !app_assoc.
Qed.

End StalePeers.


(** A peer without the handshake attribute makes the comprehension raise. *)
Lemma stale_keys_raises cutoff peers :
  Exists (fun p => WGPEER_A_LAST_HANDSHAKE_TIME p = None) peers ->
  exists e, stale_keys cutoff peers = Raise e.
Proof.
  induction 1 as [p peers Hnone | p peers _ IH].
  - exists AttributeError. cbn [stale_keys]. unfold handshake_before.
    by rewrite Hnone.
  - destruct IH as [e He]. cbn [stale_keys].
    destruct (handshake_before cutoff p) as [[] | e1]; cbn [rbind];
      [| by eauto | by eauto].
    destruct (public_key_text p) as [key | e2]; cbn [rbind]; [| by eauto].
    rewrite He. by eauto.
Qed.

Lemma stale_keys_attribute_error cutoff peers :
  Forall has_text_key peers ->
  Exists (fun p => WGPEER_A_LAST_HANDSHAKE_TIME p = None) peers ->
  stale_keys cutoff peers = Raise AttributeError.
Proof.
  intros Hkey Hex. induction Hex as [p peers Hnone | p peers _ IH].
  - cbn [stale_keys]. unfold handshake_before. by rewrite Hnone.
  - inversion Hkey as [| ? ? (key & Hk & Hvalid) Hkey']; subst.
    cbn [stale_keys].
    destruct (handshake_before cutoff p) as [[] | e1] eqn:Hhb; cbn [rbind].
    + unfold public_key_text, decode_utf8. rewrite Hk, Hvalid. cbn [rbind].
      by rewrite IH.
    + by apply IH.
    + unfold handshake_before in Hhb.
      destruct (WGPEER_A_LAST_HANDSHAKE_TIME p); by simplify_eq.
Qed.


Section StalePeersStatements.

Context {reply K : Type}.
Variable perform : forall c : call, K -> result (@answer reply c) * K.


(** C10: a reported peer without the last-handshake attribute makes
    [find_stale_wireguard_clients] raise ([AttributeError], when the keys
    are in order); a peer whose attribute is a record is classified without
    error, and as stale when [tv_sec] is missing or zero. *)
Theorem find_stale_raises_without_handshake iface (w : @world reply K)
        devices k :
  perform (WgInfo iface) (kernel w) = (Ok devices, k) ->
  Exists (fun p => WGPEER_A_LAST_HANDSHAKE_TIME p = None)
         (reported_peers devices) ->
  let cutoff := cutoff_of (clock w) in
  (exists e, fst (find_stale_wireguard_clients perform iface w) = Raise e)
  /\ (Forall has_text_key (reported_peers devices) ->
      fst (find_stale_wireguard_clients perform iface w) = Raise AttributeError)
  /\ (forall p ts,
        WGPEER_A_LAST_HANDSHAKE_TIME p = Some ts ->
        handshake_before cutoff p = Ok (tv_sec ts <? cutoff)
        /\ (0 < cutoff ->
            ts !! "tv_sec" = None \/ ts !! "tv_sec" = Some 0 ->
            handshake_before cutoff p = Ok true)).
Proof.
  intros Hinfo Hex cutoff. rewrite find_stale_run, Hinfo. cbn [fst].
  split; [by apply stale_keys_raises |].
  split; [intros Hkey; by apply stale_keys_attribute_error |].
  intros p ts Hts. unfold handshake_before, tv_sec. rewrite Hts.
  split; [done |].
  intros Hpos%Z.ltb_lt [-> | ->]; cbn [default]; by f_equal.
Qed.

End StalePeersStatements.

(** ** The sweep and kernel failures *)

Section Sweep.

Context {reply K : Type}.
Variable perform : forall c : call, K -> result (@answer reply c) * K.

Abbreviation world := (@world reply K).

Lemma for_each_raises {A B} (f : A -> M B) pre x post
      (w w1 w2 : world) ys e :
  for_each f pre w = (Ok ys, w1) ->
  f x w1 = (Raise e, w2) ->
  for_each f (pre ++ x :: post) w = (Raise e, w2).
Proof.
  revert w ys. induction pre as [| a pre IH]; intros w ys Hpre Hx.
  - cbn [for_each] in Hpre. unfold mret in Hpre. injection Hpre as <- <-.
    cbn [app for_each]. unfold mbind. by rewrite Hx.
  - cbn [app for_each] in *. unfold mbind, mret in *.
    destruct (f a w) as [[b | e'] w']; [| discriminate].
    destruct (for_each f pre w') as [[bs | e'] w''] eqn:Hrest; [| discriminate].
    injection Hpre as <- <-. by rewrite (IH w' bs Hrest Hx).
Qed.

Lemma wg_flush_stale_peers_run domain (w : world) :
  wg_flush_stale_peers perform domain w
  = match find_stale_wireguard_clients perform ("wg-" +:+ domain)
            (emit (searching domain) w)
    with
    | (Ok keys, w0) =>
        match for_each (link_handler perform) (map (stale_client domain) keys)
                       (processing domain keys w0) with
        | (Ok handled, w1) =>
            (Ok handled,
             emit (Log DEBUG "Handled the following clients: %s"
                       [LOutcomes handled]) w1)
        | (Raise e, w1) => (Raise e, w1)
        end
    | (Raise e, w0) => (Raise e, w0)
    end.
Proof.
  unfold wg_flush_stale_peers, mbind, log, mret. cbn [fst snd].
  destruct (find_stale_wireguard_clients perform _ _) as [[keys | e] w0];
    [| done].
  fold (stale_client domain). unfold processing.
  by destruct (for_each _ _ _) as [[handled | e] w1].
Qed.

(** C6, as amended: an error that propagates out of [link_handler] for one
    stale peer propagates out of [wg_flush_stale_peers] as well; the sweep
    stops in the world that call left, so the peers after it are not
    processed in this tick and the sweep logs nothing about the failure. *)
Theorem wg_flush_stale_peers_aborts domain (w w0 w1 w2 : world)
        pre key post handled e :
  find_stale_wireguard_clients perform ("wg-" +:+ domain)
    (emit (searching domain) w)
  = (Ok (pre ++ key :: post), w0) ->
  for_each (link_handler perform) (map (stale_client domain) pre)
           (processing domain (pre ++ key :: post) w0)
  = (Ok handled, w1) ->
  link_handler perform (stale_client domain key) w1 = (Raise e, w2) ->
  wg_flush_stale_peers perform domain w = (Raise e, w2).
Proof.
  intros Hfind Hpre Hkey. rewrite wg_flush_stale_peers_run, Hfind.
  rewrite map_app. cbn [map].
  by rewrite (for_each_raises _ _ _ _ _ _ _ _ _ Hpre Hkey).
Qed.

(** C8, as amended: there is no [KernelInterfaceError].  When the interface
    lookup finds nothing, [route_handler] and [bridge_fdb_handler] raise
    [IndexError] without sending the route or FDB request; an error raised
    by a kernel request ([wg.set], [wg.info], [route], [fdb]) comes out of
    the operation unchanged; an interface that reports no peers gives
    [find_stale_wireguard_clients] the empty list, not an error. *)
Theorem kernel_failures_pass_unchanged c addr iface (w : world) :
  lladdr c = Ok addr ->
  (fst (perform (LinkLookup (wg_interface c)) (kernel w)) = Ok [] ->
   fst (route_handler perform c w) = Raise IndexError
   /\ extends w (snd (route_handler perform c w))
              [Call (LinkLookup (wg_interface c))])
  /\ (fst (perform (LinkLookup (vx_interface c)) (kernel w)) = Ok [] ->
      fst (bridge_fdb_handler perform c w) = Raise IndexError
      /\ extends w (snd (bridge_fdb_handler perform c w))
                 [Call (LinkLookup (vx_interface c))])
  /\ (forall e,
        fst (perform (WgSet (wg_interface c) (the_peer c addr)) (kernel w))
        = Raise e ->
        fst (update_wireguard_peer perform c w) = Raise e)
  /\ (forall e oif found k,
        perform (LinkLookup (wg_interface c)) (kernel w)
        = (Ok (oif :: found), k) ->
        fst (perform (IpRoute (if remove c then "del" else "replace") addr oif) k)
        = Raise e ->
        fst (route_handler perform c w) = Raise e)
  /\ (forall e ifindex found k1 nda found' k2,
        perform (LinkLookup (vx_interface c)) (kernel w)
        = (Ok (ifindex :: found), k1) ->
        perform (LinkLookup (wg_interface c)) k1 = (Ok (nda :: found'), k2) ->
        fst (perform (IpFdb (if remove c then "del" else "append") ifindex
                            "00:00:00:00:00:00" (re_sub_prefixlen "" addr) nda)
                     k2)
        = Raise e ->
        fst (bridge_fdb_handler perform c w) = Raise e)
  /\ (forall e,
        fst (perform (WgInfo iface) (kernel w)) = Raise e ->
        fst (find_stale_wireguard_clients perform iface w) = Raise e)
  /\ (forall devices,
        fst (perform (WgInfo iface) (kernel w)) = Ok devices ->
        reported_peers devices = [] ->
        fst (find_stale_wireguard_clients perform iface w) = Ok []).
Proof.
  intros Haddr.
  assert (Hroute : forall r,
            fst (perform (LinkLookup (wg_interface c)) (kernel w)) = r ->
            route_handler perform c w
            = match r with
              | Ok (oif :: _) =>
                  request perform
                    (IpRoute (if remove c then "del" else "replace") addr oif)
                    (snd (request perform (LinkLookup (wg_interface c)) w))
              | Ok [] =>
                  (Raise IndexError,
                   snd (request perform (LinkLookup (wg_interface c)) w))
              | Raise e =>
                  (Raise e,
                   snd (request perform (LinkLookup (wg_interface c)) w))
              end).
  { intros r <-. unfold route_handler, mbind, lift.
    rewrite Haddr, (request_run _ (LinkLookup _)). cbn [fst snd].
    by destruct (fst (perform (LinkLookup (wg_interface c)) (kernel w)))
      as [[| oif found] | e]. }
  split; [| split; [| split; [| split; [| split; [| split]]]]].
  - intros Hlook. rewrite (Hroute _ Hlook), request_run. by cbn.
  - intros Hlook. unfold bridge_fdb_handler, mbind, lift, extends.
    rewrite request_run. cbn [fst snd]. by rewrite Hlook.
  - intros e He. rewrite update_wireguard_peer_run, Haddr, request_run.
    by cbn [fst].
  - intros e oif found k Hlook He.
    rewrite (Hroute (Ok (oif :: found))) by by rewrite Hlook.
    rewrite !request_run, Hlook. by cbn [fst snd kernel].
  - intros e ifindex found k1 nda found' k2 Hvx Hwg He.
    unfold bridge_fdb_handler, mbind, lift.
    rewrite request_run, Hvx. cbn [fst snd item0]. rewrite Haddr.
    rewrite request_run. cbn [fst snd kernel]. rewrite Hwg.
    cbn [fst snd item0]. rewrite request_run. by cbn [fst kernel].
  - intros e He. rewrite find_stale_run.
    by destruct (perform (WgInfo iface) (kernel w)) as [[devices | e'] k];
      simplify_eq/=.
  - intros devices Hdev Hnone. rewrite find_stale_run.
    destruct (perform (WgInfo iface) (kernel w)) as [[devices' | e'] k];
      simplify_eq/=. by rewrite Hnone.
Qed.

End Sweep.

(** ** The scenarios, run *)



(** The same scenario with peer C reported without the attribute. *)
Lemma find_stale_raises_without_handshake_witness :
  let peers := [peer_A; peer_B; peer_C_bare] in
  let w := world_of (kernel_with interfaces peers [] []) in
  Exists (fun p => WGPEER_A_LAST_HANDSHAKE_TIME p = None) peers
  /\ fst (find_stale_wireguard_clients Sim.perform "wg-d" w)
     = Raise AttributeError.
Proof.
  intros peers w.
  assert (Hex : Exists (fun p => WGPEER_A_LAST_HANDSHAKE_TIME p = None) peers)
    by (do 2 apply Exists_cons_tl; apply Exists_cons_hd; reflexivity).
  split; [exact Hex |].
  destruct (find_stale_raises_without_handshake Sim.perform "wg-d" w
              [ {| WGDEVICE_A_PEERS := Some peers |} ] (kernel w) eq_refl Hex)
    as (_ & Hattr & _).
  apply Hattr. repeat constructor; eexists; split; reflexivity.
Defined.

Lemma pair_with_fst {A B} (p : A * B) (a : A) : fst p = a -> p = (a, snd p).
Proof. intros <-. by destruct p. Qed.

(** Without the interface [wg-d] the WireGuard adapter is refused (ENODEV):
    the reconciler stops there, with the [wg.set] request as the only
    event. *)
Lemma link_handler_wireguard_error_witness :
  let c := client golden_key false in
  let w := world_of (kernel_with [] [] [] []) in
  let w1 := snd (update_wireguard_peer Sim.perform c w) in
  update_wireguard_peer Sim.perform c w = (Raise (NetlinkError 19), w1)
  /\ link_handler Sim.perform c w = (Raise (NetlinkError 19), w1)
  /\ requests w1
     = [WgSet "wg-d" (the_peer c (golden_addr +:+ "/128"))].
Proof.
  intros c w w1.
  assert (Hwg : update_wireguard_peer Sim.perform c w
                = (Raise (NetlinkError 19), w1))
    by (vm_compute; reflexivity).
  split; [exact Hwg |]. split.
  - exact (proj1 (link_handler_wireguard_error Sim.perform c w _ w1 Hwg)).
  - vm_compute. reflexivity.
Defined.

(** Removing a peer whose route is not there: the route request is refused
    (ESRCH), the FDB entry is deleted all the same and the refusal is the
    value under ["Route"]. *)
Lemma link_handler_route_error_witness :
  let c := client golden_key true in
  let w := world_of (kernel_with interfaces [] [] [(8, golden_addr, 7)]) in
  let e := NetlinkError 3 in
  let w1 := snd (update_wireguard_peer Sim.perform c w) in
  let w2 := snd (route_handler Sim.perform c (emit (handling_links c) w1)) in
  update_wireguard_peer Sim.perform c w = (Ok tt, w1)
  /\ route_handler Sim.perform c (emit (handling_links c) w1) = (Raise e, w2)
  /\ is_Exception e = true
  /\ exists m w',
       link_handler Sim.perform c w = (Ok m, w')
       /\ m !! "Route" = Some (Caught e)
       /\ Sim.fdb (kernel w') = [].
Proof.
  intros c w e w1 w2.
  assert (Hwg : update_wireguard_peer Sim.perform c w = (Ok tt, w1))
    by (vm_compute; reflexivity).
  assert (Hroute : route_handler Sim.perform c (emit (handling_links c) w1)
                   = (Raise e, w2))
    by (vm_compute; reflexivity).
  split; [exact Hwg |]. split; [exact Hroute |]. split; [reflexivity |].
  destruct (link_handler_route_error Sim.perform c w tt w1 e w2
              Hwg Hroute eq_refl) as (_ & _ & Hmap).
  set (m := <["Bridge FDB" := Returned tt]>
              (<["Route" := Caught e]>
                 (<["Wireguard" := Returned tt]> (∅ : gmap string outcome)))).
  assert (Hlh : link_handler Sim.perform c w
                = (Ok m, snd (link_handler Sim.perform c w)))
    by (apply pair_with_fst; vm_compute; reflexivity).
  exists m, (snd (link_handler Sim.perform c w)).
  split; [exact Hlh |]. split; [exact (Hmap _ _ Hlh) |].
  vm_compute. reflexivity.
Defined.

(** Adding a peer on a kernel that has both interfaces. *)
Lemma link_handler_order_and_keys_witness :
  let c := client golden_key false in
  let w := world_of (kernel_with interfaces [] [] []) in
  exists m w',
    link_handler Sim.perform c w = (Ok m, w')
    /\ dom m = {["Wireguard"; "Route"; "Bridge FDB"]}
    /\ requests w'
       = [WgSet "wg-d" (the_peer c (golden_addr +:+ "/128"));
          LinkLookup "wg-d";
          IpRoute "replace" (golden_addr +:+ "/128") 7;
          LinkLookup "vx-d"; LinkLookup "wg-d";
          IpFdb "append" 8 "00:00:00:00:00:00" golden_addr 7].
Proof.
  intros c w.
  set (m := <["Bridge FDB" := Returned tt]>
              (<["Route" := Returned tt]>
                 (<["Wireguard" := Returned tt]> (∅ : gmap string outcome)))).
  assert (Hlh : link_handler Sim.perform c w
                = (Ok m, snd (link_handler Sim.perform c w)))
    by (apply pair_with_fst; vm_compute; reflexivity).
  exists m, (snd (link_handler Sim.perform c w)).
  split; [exact Hlh |]. split.
  - exact (proj1 (proj2 (link_handler_order_and_keys Sim.perform c w) m _ Hlh)).
  - vm_compute. reflexivity.
Defined.

(** The sweep over [sweep_world]: the first stale peer fails in its FDB
    step, and the sweep ends where that call ended. *)
Lemma wg_flush_stale_peers_aborts_witness :
  let w0 := snd (find_stale_wireguard_clients Sim.perform "wg-d"
                   (emit (searching "d") sweep_world)) in
  let w1 := processing "d" [golden_key; key_one] w0 in
  let w2 := snd (link_handler Sim.perform (stale_client "d" golden_key) w1) in
  find_stale_wireguard_clients Sim.perform "wg-d"
    (emit (searching "d") sweep_world) = (Ok ([] ++ golden_key :: [key_one]), w0)
  /\ link_handler Sim.perform (stale_client "d" golden_key) w1
     = (Raise IndexError, w2)
  /\ wg_flush_stale_peers Sim.perform "d" sweep_world = (Raise IndexError, w2).
Proof.
  intros w0 w1 w2.
  assert (Hfind : find_stale_wireguard_clients Sim.perform ("wg-" +:+ "d")
                    (emit (searching "d") sweep_world)
                  = (Ok ([] ++ golden_key :: [key_one]), w0))
    by (vm_compute; reflexivity).
  assert (Hkey : link_handler Sim.perform (stale_client "d" golden_key) w1
                 = (Raise IndexError, w2))
    by (vm_compute; reflexivity).
  split; [exact Hfind |]. split; [exact Hkey |].
  exact (wg_flush_stale_peers_aborts Sim.perform "d" sweep_world w0 w1 w2
           [] golden_key [key_one] [] IndexError Hfind eq_refl Hkey).
Defined.

(** C6 fails as stated: the first stale peer cannot be reconciled (its FDB
    step finds no [vx-d]); the sweep raises, the second stale peer is still
    in the kernel, no request was sent for it, and no error was logged. *)
Lemma wg_flush_stale_peers_counterexample :
  let run := wg_flush_stale_peers Sim.perform "d" sweep_world in
  fst run = Raise IndexError
  /\ map key_text (Sim.peers_of "wg-d" (kernel (snd run))) = [key_one]
  /\ requests (snd run)
     = [WgInfo "wg-d";
        WgSet "wg-d" (the_peer (stale_client "d" golden_key)
                               (golden_addr +:+ "/128"));
        LinkLookup "wg-d";
        IpRoute "del" (golden_addr +:+ "/128") 7;
        LinkLookup "vx-d"]
  /\ Forall (fun ev => match ev with Log ERROR _ _ => False | _ => True end)
            (trace (snd run)).
Proof.
  vm_compute. repeat split; try reflexivity. repeat constructor.
Qed.

(** A kernel without the interfaces, and one whose [wg-d] has no peers. *)
Lemma kernel_failures_pass_unchanged_witness :
  let c := client golden_key false in
  let missing := world_of (kernel_with [] [] [] []) in
  let empty := world_of (kernel_with interfaces [] [] []) in
  lladdr c = Ok (golden_addr +:+ "/128")
  /\ fst (route_handler Sim.perform c missing) = Raise IndexError
  /\ fst (bridge_fdb_handler Sim.perform c missing) = Raise IndexError
  /\ fst (update_wireguard_peer Sim.perform c missing) = Raise (NetlinkError 19)
  /\ fst (find_stale_wireguard_clients Sim.perform "wg-d" missing)
     = Raise (NetlinkError 19)
  /\ fst (find_stale_wireguard_clients Sim.perform "wg-d" empty) = Ok [].
Proof.
  intros c missing empty.
  assert (Haddr : lladdr c = Ok (golden_addr +:+ "/128"))
    by (vm_compute; reflexivity).
  destruct (kernel_failures_pass_unchanged Sim.perform c _ "wg-d" missing Haddr)
    as (Hroute & Hfdb & Hwg & _ & _ & Hinfo & _).
  destruct (kernel_failures_pass_unchanged Sim.perform c _ "wg-d" empty Haddr)
    as (_ & _ & _ & _ & _ & _ & Hnone).
  split; [exact Haddr |].
  split; [exact (proj1 (Hroute eq_refl)) |].
  split; [exact (proj1 (Hfdb eq_refl)) |].
  split; [exact (Hwg _ eq_refl) |].
  split; [exact (Hinfo _ eq_refl) |].
  exact (Hnone _ eq_refl eq_refl).
Defined.

(** C8 fails as stated: on a kernel without the interfaces the adapters and
    the detector fail with [IndexError] or with the library's
    [NetlinkError], never with a [KernelInterfaceError]. *)
Lemma kernel_interface_error_counterexample :
  let c := client golden_key false in
  let missing := world_of (kernel_with [] [] [] []) in
  let failures :=
    [fst (update_wireguard_peer Sim.perform c missing);
     fst (route_handler Sim.perform c missing);
     fst (bridge_fdb_handler Sim.perform c missing)] in
  failures = [Raise (NetlinkError 19); Raise IndexError; Raise IndexError]
  /\ fst (find_stale_wireguard_clients Sim.perform "wg-d" missing)
     = Raise (NetlinkError 19)
  /\ forall subsystem interface,
       ~ In (Raise (KernelInterfaceError subsystem interface)) failures.
Proof.
  vm_compute. split; [reflexivity |]. split; [reflexivity |].
  intros subsystem interface [H | [H | [H | []]]]; discriminate.
Qed.

(** * Further properties *)

(** ** Rules for the events a computation adds *)

Section Adds.

Context {reply K : Type}.
Variable perform : forall c : call, K -> result (@answer reply c) * K.

Abbreviation world := (@world reply K).
Abbreviation M := (@M reply K).

Implicit Types P : @event reply -> Prop.

Lemma extends_refl (w : world) : extends w w [].
Proof. unfold extends. by rewrite app_nil_r. Qed.

Lemma extends_trans (w1 w2 w3 : world) evs evs' :
  extends w1 w2 evs -> extends w2 w3 evs' -> extends w1 w3 (evs ++ evs').
Proof. unfold extends. intros H1 H2. by rewrite H2, H1, app_assoc. Qed.

Lemma adds_mret {A} P (a : A) : adds P (mret a : M A).
Proof.
  intros w r w' [= <- <-]. exists []. split; [apply extends_refl | constructor].
Qed.

Lemma adds_lift {A} P (x : result A) : adds P (lift x : M A).
Proof.
  intros w r w' [= <- <-]. exists []. split; [apply extends_refl | constructor].
Qed.

Lemma adds_now P : adds P (now : M Z).
Proof.
  intros w r w' [= <- <-]. exists []. split; [apply extends_refl | constructor].
Qed.

Lemma adds_log P lvl fmt args :
  P (Log lvl fmt args) -> adds P (log lvl fmt args : M unit).
Proof.
  intros HP w r w' [= <- <-]. exists [Log lvl fmt args].
  split; [reflexivity | by repeat constructor].
Qed.

Lemma adds_request P c : P (Call c) -> adds P (request perform c).
Proof.
  intros HP w r w'. rewrite request_run. intros [= <- <-].
  exists [Call c]. split; [reflexivity | by repeat constructor].
Qed.

Lemma adds_bind {A B} P (m : M A) (f : A -> M B) :
  adds P m ->
  (forall a w w1, m w = (Ok a, w1) -> adds P (f a)) ->
  adds P (mbind m f).
Proof.
  intros Hm Hf w r w'. unfold mbind.
  destruct (m w) as [[a | e] w1] eqn:Hrun.
  - intros Hfa. destruct (Hm _ _ _ Hrun) as (evs & Hext & Hall).
    destruct (Hf a w w1 Hrun _ _ _ Hfa) as (evs' & Hext' & Hall').
    exists (evs ++ evs'). split; [by eapply extends_trans | by apply Forall_app].
  - intros [= <- <-]. exact (Hm _ _ _ Hrun).
Qed.

Lemma adds_try_except {A} P (body : M A) (handler : exn -> M A) :
  adds P body -> (forall e, adds P (handler e)) ->
  adds P (try_except body handler).
Proof.
  intros Hbody Hhandler w r w'. unfold try_except.
  destruct (body w) as [[a | e] w1] eqn:Hrun.
  - intros [= <- <-]. exact (Hbody _ _ _ Hrun).
  - destruct (is_Exception e).
    + intros Hh. destruct (Hbody _ _ _ Hrun) as (evs & Hext & Hall).
      destruct (Hhandler e _ _ _ Hh) as (evs' & Hext' & Hall').
      exists (evs ++ evs').
      split; [by eapply extends_trans | by apply Forall_app].
    + intros [= <- <-]. exact (Hbody _ _ _ Hrun).
Qed.

Lemma adds_for_each {A B} P (f : A -> M B) (xs : list A) :
  (forall x, x ∈ xs -> adds P (f x)) -> adds P (for_each f xs).
Proof.
  induction xs as [| x xs IH]; intros Hf; cbn [for_each].
  - apply adds_mret.
  - apply adds_bind; [apply Hf; left |]. intros y _ _ _.
    apply adds_bind; [apply IH; intros x' Hx'; apply Hf; by right |].
    intros ys _ _ _. apply adds_mret.
Qed.

Lemma adds_weaken {A} P Q (m : M A) :
  (forall ev, P ev -> Q ev) -> adds P m -> adds Q m.
Proof.
  intros HPQ Hm w r w' Hrun. destruct (Hm _ _ _ Hrun) as (evs & Hext & Hall).
  exists evs. split; [done |]. eapply Forall_impl; eauto.
Qed.

(** *** What the adapters, the reconciler and the sweep add *)

Lemma lift_returned {A} (x : result A) (a : A) (w w1 : world) :
  lift x w = (Ok a, w1) -> x = Ok a.
Proof. by intros [= -> _]. Qed.

Lemma update_wireguard_peer_adds c :
  adds (requests_only (link_request c)) (update_wireguard_peer perform c).
Proof.
  unfold update_wireguard_peer.
  apply adds_bind; [apply adds_lift |]. intros addr w w1 Haddr%lift_returned.
  apply (adds_request _ (WgSet _ _)). cbn. split; [done |]. by exists addr.
Qed.

Lemma route_handler_adds_own c :
  adds (calls_only (route_request c)) (route_handler perform c).
Proof.
  unfold route_handler.
  apply adds_bind; [apply adds_lift |]. intros dst w w1 Hdst%lift_returned.
  apply adds_bind; [by apply (adds_request _ (LinkLookup _)) |].
  intros found _ _ _.
  apply adds_bind; [apply adds_lift |]. intros oif _ _ _.
  by apply (adds_request _ (IpRoute _ _ _)).
Qed.

Lemma bridge_fdb_handler_adds_own c :
  adds (calls_only (fdb_request c)) (bridge_fdb_handler perform c).
Proof.
  unfold bridge_fdb_handler.
  apply adds_bind; [apply (adds_request _ (LinkLookup _)); cbn; by left |].
  intros found _ _ _.
  apply adds_bind; [apply adds_lift |]. intros ifindex _ _ _.
  apply adds_bind; [apply adds_lift |]. intros addr w w1 Haddr%lift_returned.
  apply adds_bind; [apply (adds_request _ (LinkLookup _)); cbn; by right |].
  intros found' _ _ _.
  apply adds_bind; [apply adds_lift |]. intros nda _ _ _.
  apply (adds_request _ (IpFdb _ _ _ _ _)). cbn. repeat split. by exists addr.
Qed.

Lemma route_handler_adds c :
  adds (requests_only (after_set_request c)) (route_handler perform c).
Proof.
  eapply adds_weaken; [| apply route_handler_adds_own].
  intros [[] |]; cbn; unfold after_set_request; cbn; tauto.
Qed.

Lemma bridge_fdb_handler_adds c :
  adds (requests_only (after_set_request c)) (bridge_fdb_handler perform c).
Proof.
  eapply adds_weaken; [| apply bridge_fdb_handler_adds_own].
  intros [[] |]; cbn; unfold after_set_request; cbn; tauto.
Qed.

Lemma after_set_is_link_request c (ev : @event reply) :
  requests_only (after_set_request c) ev -> requests_only (link_request c) ev.
Proof. destruct ev as [q |]; [by intros [? _] | done]. Qed.

Lemma link_handler_adds c :
  adds (requests_only (link_request c)) (link_handler perform c).
Proof.
  pose proof (adds_weaken _ _ _ (after_set_is_link_request c)
                (route_handler_adds c)) as Hroute.
  pose proof (adds_weaken _ _ _ (after_set_is_link_request c)
                (bridge_fdb_handler_adds c)) as Hfdb.
  unfold link_handler.
  apply adds_bind; [apply update_wireguard_peer_adds |]. intros r1 _ _ _.
  apply adds_bind; [by apply adds_log |]. intros _ _ _ _.
  apply adds_bind.
  { apply adds_try_except.
    - apply adds_bind; [apply Hroute |]. intros r2 _ _ _.
      apply adds_bind; [by apply adds_log |]. intros _ _ _ _. apply adds_mret.
    - intros e. apply adds_bind; [by apply adds_log |]. intros _ _ _ _.
      apply adds_mret. }
  intros results _ _ _.
  apply adds_bind; [apply Hfdb |]. intros r3 _ _ _.
  apply adds_bind; [by apply adds_log |]. intros _ _ _ _. apply adds_mret.
Qed.

Lemma collect_clients_adds P devices acc :
  (forall lvl fmt args, P (Log lvl fmt args)) ->
  adds P (collect_clients devices acc : M (list wgpeer)).
Proof.
  intros Hlog. revert acc.
  induction devices as [| d devices IH]; intros acc; cbn [collect_clients].
  - apply adds_mret.
  - apply adds_bind; [by apply adds_log |]. intros _ _ _ _. apply IH.
Qed.

Lemma find_stale_adds P iface :
  (forall lvl fmt args, P (Log lvl fmt args)) -> P (Call (WgInfo iface)) ->
  adds P (find_stale_wireguard_clients perform iface).
Proof.
  intros Hlog Hinfo. unfold find_stale_wireguard_clients.
  apply adds_bind; [apply adds_now |]. intros now_us _ _ _.
  apply adds_bind; [by apply adds_log |]. intros _ _ _ _.
  apply adds_bind; [by apply (adds_request _ (WgInfo _)) |].
  intros devices _ _ _.
  apply adds_bind; [by apply adds_log |]. intros _ _ _ _.
  apply adds_bind; [by apply collect_clients_adds |]. intros peers _ _ _.
  apply adds_lift.
Qed.

Lemma link_request_of_stale_client domain key q :
  link_request (stale_client domain key) q -> sweep_request domain q.
Proof.
  destruct q as [ifname peer | ifname | ifname | command dst oif
                 | command ifindex mac dst nda]; cbn.
  - intros [-> (addr & _ & ->)]. by cbv.
  - done.
  - done.
  - by intros [-> _].
  - by intros [-> _].
Qed.

Lemma wg_flush_stale_peers_adds domain :
  adds (requests_only (sweep_request domain))
       (wg_flush_stale_peers perform domain).
Proof.
  unfold wg_flush_stale_peers.
  apply adds_bind; [by apply adds_log |]. intros _ _ _ _.
  apply adds_bind; [by apply find_stale_adds |]. intros keys _ _ _.
  apply adds_bind; [by apply adds_log |]. intros _ _ _ _.
  apply adds_bind; [by apply adds_log |]. intros _ _ _ _.
  apply adds_bind; [by apply adds_log |]. intros _ _ _ _.
  apply adds_bind; [by apply adds_log |]. intros _ _ _ _.
  apply adds_bind.
  { apply adds_for_each. intros c [key [<- _]]%list_elem_of_In%in_map_iff.
    eapply adds_weaken; [| apply link_handler_adds].
    intros [q |]; cbn; [apply link_request_of_stale_client | done]. }
  intros handled _ _ _.
  apply adds_bind; [by apply adds_log |]. intros _ _ _ _. apply adds_mret.
Qed.

Lemma requests_only_calls (P : call -> Prop) (evs : list (@event reply)) :
  Forall (requests_only P) evs -> Forall P (calls_of evs).
Proof.
  induction 1 as [| [q | lvl fmt args] evs Hev _ IH]; cbn; [done | | done].
  by constructor.
Qed.

(** X1: whatever happens, every request [link_handler] sends is about its
    own client: [wg.set] on [wg-domain] with the client's key, flag and
    address as only allowed address, lookups of [wg-domain] and
    [vx-domain], a route request for the address and an FDB request for the
    all-zero MAC and the address without its prefix length, both deleting
    exactly when [remove] is set.  It never queries the peers. *)
Theorem link_handler_footprint c (w : world) :
  exists evs,
    extends w (snd (link_handler perform c w)) evs
    /\ Forall (link_request c) (calls_of evs).
Proof.
  destruct (link_handler perform c w) as [r w'] eqn:Hrun.
  destruct (link_handler_adds c _ _ _ Hrun) as (evs & Hext & Hall).
  exists evs. split; [done | by apply requests_only_calls].
Qed.

(** X2: the sweep of a domain only queries [wg-domain], looks the two
    interfaces of the domain up, and removes: every [wg.set] it sends has
    the removal flag set and every route or FDB request is a [del]. *)
Theorem wg_flush_stale_peers_only_removes domain (w : world) :
  exists evs,
    extends w (snd (wg_flush_stale_peers perform domain w)) evs
    /\ Forall (sweep_request domain) (calls_of evs).
Proof.
  destruct (wg_flush_stale_peers perform domain w) as [r w'] eqn:Hrun.
  destruct (wg_flush_stale_peers_adds domain _ _ _ Hrun) as (evs & Hext & Hall).
  exists evs. split; [done | by apply requests_only_calls].
Qed.

End Adds.

(** ** Names, text and time *)

(** X3: the WireGuard interface of a client is never the VXLAN interface of
    any client, and each of the two names determines the domain. *)
Theorem interface_names_distinct (c1 c2 : WireGuardClient) :
  wg_interface c1 <> vx_interface c2
  /\ (wg_interface c1 = wg_interface c2 <-> domain c1 = domain c2)
  /\ (vx_interface c1 = vx_interface c2 <-> domain c1 = domain c2).
Proof.
  unfold wg_interface, vx_interface. split; [| split].
  - intros [=].
  - split; [intros Heq; by apply (inj (String.app "wg-")) in Heq | by intros ->].
  - split; [intros Heq; by apply (inj (String.app "vx-")) in Heq | by intros ->].
Qed.

Lemma digits_to_end_true_cases seen s :
  digits_to_end seen s = true ->
  drop_digits s = EmptyString \/ drop_digits s = String "010" EmptyString.
Proof.
  revert seen. induction s as [| c s IH]; intros seen; cbn.
  - by left.
  - destruct (is_digit c); [apply IH |].
    intros [[_ Hc%Ascii.eqb_eq]%andb_prop Hs]%andb_prop.
    destruct s; [| done]. subst c. by right.
Qed.

Lemma re_sub_empty_iff s : re_sub_prefixlen "/128" s = EmptyString <-> s = EmptyString.
Proof.
  split; [| by intros ->]. destruct s as [| c s]; [done |]. cbn.
  by destruct ((c =? "/")%char && digits_to_end false s).
Qed.

Lemma digits_to_end_re_sub seen s :
  digits_to_end seen (re_sub_prefixlen "/128" s) = digits_to_end seen s.
Proof.
  revert seen. induction s as [| c s IH]; intros seen; [done |].
  cbn [re_sub_prefixlen].
  destruct ((c =? "/")%char && digits_to_end false s) eqn:Hmatch.
  - apply andb_prop in Hmatch as [->%Ascii.eqb_eq _].
    change ("/128" +:+ drop_digits s) with (String "/" ("128" +:+ drop_digits s)).
    cbn [digits_to_end]. change (is_digit "/") with false.
    change ("/" =? "010")%char with false. by rewrite !andb_false_r.
  - cbn [digits_to_end]. destruct (is_digit c); [apply IH |].
    f_equal. destruct s as [| c' s]; [done |].
    destruct (re_sub_prefixlen "/128" (String c' s)) eqn:Hsub; [| done].
    apply (proj1 (re_sub_empty_iff _)) in Hsub. discriminate.
Qed.

Lemma re_sub_after_force repl s :
  re_sub_prefixlen repl (re_sub_prefixlen "/128" s) = re_sub_prefixlen repl s.
Proof.
  induction s as [| c s IH]; [done |]. cbn [re_sub_prefixlen].
  destruct ((c =? "/")%char && digits_to_end false s) eqn:Hmatch.
  - apply andb_prop in Hmatch as [_ Hdigits].
    destruct (digits_to_end_true_cases _ _ Hdigits) as [-> | ->]; reflexivity.
  - cbn [re_sub_prefixlen]. by rewrite digits_to_end_re_sub, Hmatch, IH.
Qed.

(** X4: removing the prefix length from a text whose prefix length was
    forced to [/128] gives what removing it from the text itself gives, and
    forcing twice changes nothing: the FDB destination is the address
    [mac2eui64] returned, without its prefix length, whatever that was. *)
Theorem fdb_destination_strips_forced_prefix (eui : string) :
  re_sub_prefixlen "" (re_sub_prefixlen "/128" eui) = re_sub_prefixlen "" eui
  /\ re_sub_prefixlen "/128" (re_sub_prefixlen "/128" eui)
     = re_sub_prefixlen "/128" eui.
Proof. split; apply re_sub_after_force. Qed.



(** ** The pseudo-MAC *)

Lemma lladdr_through_mac c :
  lladdr c
  = (let? mac := current_mac_addr (public_key c) in
     let? eui := mac2eui64 mac link_local in
     Ok (re_sub_prefixlen "/128" eui)).
Proof.
  unfold lladdr, current_mac_addr. by destruct (encode_ascii (public_key c)).
Qed.

Lemma concat_hex2_length octets :
  octets <> [] ->
  String.length (String.concat ":" (map hex2 octets))
  = (3 * List.length octets - 1)%nat.
Proof.
  induction octets as [| b [| b' octets] IH]; intros Hne; [done | done |].
  change (String.concat ":" (map hex2 (b :: b' :: octets)))
    with (hex2 b +:+ String ":" (String.concat ":" (map hex2 (b' :: octets)))).
  rewrite str_length_app. cbn [String.length hex2]. rewrite IH by done.
  cbn [List.length]. lia.
Qed.

(** X6: for a key of ASCII characters the text [lladdr] hands to
    [mac2eui64] is [02] followed by the first five bytes of the MD5 digest
    of key and newline, two hexadecimal digits each, joined by colons: six
    groups, seventeen characters, five colons.  [lladdr] is [mac2eui64] on
    this text with the prefix length forced. *)
Theorem current_mac_addr_well_formed (c : WireGuardClient) :
  is_ascii (public_key c) = true ->
  exists octets,
    octets = firstn 5 (Md5.digest (list_byte_of_string (public_key c)
                                     ++ [newline]))
    /\ List.length octets = 5%nat /\ Forall octet octets
    /\ current_mac_addr (public_key c)
       = Ok (String.concat ":" (map hex2 (2 :: octets)))
    /\ String.length (String.concat ":" (map hex2 (2 :: octets))) = 17%nat
    /\ split_on ":" (String.concat ":" (map hex2 (2 :: octets)))
       = map hex2 (2 :: octets)
    /\ lladdr c
       = (let? eui := mac2eui64 (String.concat ":" (map hex2 (2 :: octets)))
                                link_local in
          Ok (re_sub_prefixlen "/128" eui)).
Proof.
  intros Hascii.
  destruct (reference_octets_shape (public_key c))
    as (b0 & b1 & b2 & b3 & b4 & Hoct & H0 & H1 & H2 & H3 & H4).
  unfold reference_octets in Hoct.
  exists [b0; b1; b2; b3; b4].
  assert (Hmac : current_mac_addr (public_key c)
                 = Ok (String.concat ":" (map hex2 [2; b0; b1; b2; b3; b4]))).
  { unfold current_mac_addr, encode_ascii. rewrite Hascii. cbn [rbind].
    rewrite wrap_hexdigest, List.firstn_map. fold newline. by rewrite Hoct. }
  split; [done |]. split; [done |].
  split; [by repeat (constructor; [assumption |]) |].
  split; [exact Hmac |]. split; [by rewrite concat_hex2_length |]. split.
  - cbn [map]. apply (split_on_concat ":"%char).
    unfold octet in *. repeat constructor; by apply hex2_avoids.
  - by rewrite lladdr_through_mac, Hmac.
Qed.

Lemma current_mac_addr_well_formed_witness :
  is_ascii golden_key = true
  /\ current_mac_addr golden_key = Ok "02:49:58:21:d6:26".
Proof.
  split; [reflexivity |].
  destruct (current_mac_addr_well_formed (client golden_key false) eq_refl)
    as (octets & -> & _ & _ & Hmac & _).
  cbn [client public_key] in Hmac. rewrite Hmac. vm_compute. reflexivity.
Defined.

(** ** The comprehension of the detector *)

Lemma stale_keys_sublist cutoff peers keys :
  stale_keys cutoff peers = Ok keys -> sublist keys (map key_text peers).
Proof.
  revert keys. induction peers as [| p peers IH]; intros keys; cbn [stale_keys].
  - intros [= <-]. constructor.
  - destruct (handshake_before cutoff p) as [[] | e]; cbn [rbind];
      [| intros Hrest; cbn [map]; apply sublist_cons; by apply IH | done].
    cbn [map]. unfold public_key_text, key_text at 1, decode_utf8.
    destruct (WGPEER_A_PUBLIC_KEY p) as [key |]; [| done].
    destruct (utf8_valid key); [| done]. cbn [rbind].
    destruct (stale_keys cutoff peers) as [rest | e]; [| done].
    intros [= <-]. apply sublist_skip. by apply IH.
Qed.



(** ** Further runs of the reconciler, the detector and the sweep *)

Section FurtherRuns.

Context {reply K : Type}.
Variable perform : forall c : call, K -> result (@answer reply c) * K.

Abbreviation world := (@world reply K).

Lemma extends_emit (ev : @event reply) (w : world) : extends w (emit ev w) [ev].
Proof. reflexivity. Qed.

Lemma calls_of_app (evs evs' : list (@event reply)) :
  calls_of (evs ++ evs') = calls_of evs ++ calls_of evs'.
Proof. unfold calls_of. apply flat_map_app. Qed.

Lemma calls_of_got_clients devices :
  calls_of (map (@got_clients reply) devices) = [].
Proof. by induction devices. Qed.


(** X8: when [bridge_fdb_handler] raises, [link_handler] raises the same
    error and returns no outcome map, although the peer and route steps are
    done: the [wg.set] request stays first in the trace and what follows are
    only lookups and the route and FDB requests of this client, none of
    which touches the peer table again. *)
Theorem link_handler_fdb_error c (w w1 w2 w3 : world) r1 r2 e :
  update_wireguard_peer perform c w = (Ok r1, w1) ->
  route_handler perform c (emit (handling_links c) w1) = (r2, w2) ->
  absorbed r2 = true ->
  bridge_fdb_handler perform c (emit (route_event c r2) w2) = (Raise e, w3) ->
  link_handler perform c w = (Raise e, w3)
  /\ exists addr evs,
       extends w w3 (Call (WgSet (wg_interface c) (the_peer c addr)) :: evs)
       /\ Forall (after_set_request c) (calls_of evs).
Proof.
  intros Hwg Hroute Habs Hfdb. split.
  - rewrite link_handler_run, Hwg, Hroute. cbv zeta.
    destruct r2 as [x | e2]; cbn [absorbed route_event] in *.
    + unfold fdb_step. by rewrite Hfdb.
    + rewrite Habs. unfold fdb_step. by rewrite Hfdb.
  - apply update_wireguard_peer_events in Hwg
      as [(e' & _ & [=] & _) | (addr & _ & Hext1)].
    destruct (route_handler_adds perform c _ _ _ Hroute) as (t2 & Hext2 & Hall2).
    destruct (bridge_fdb_handler_adds perform c _ _ _ Hfdb)
      as (t3 & Hext3 & Hall3).
    exists addr, ([handling_links c] ++ t2 ++ [route_event c r2] ++ t3).
    split.
    + change (Call (WgSet (wg_interface c) (the_peer c addr))
                :: [handling_links c] ++ t2 ++ [route_event c r2] ++ t3)
        with ([Call (WgSet (wg_interface c) (the_peer c addr))]
                ++ [handling_links c] ++ t2 ++ [route_event c r2] ++ t3).
      eapply extends_trans; [exact Hext1 |].
      eapply extends_trans; [apply extends_emit |].
      eapply extends_trans; [exact Hext2 |].
      eapply extends_trans; [apply extends_emit | exact Hext3].
    + apply requests_only_calls.
      repeat (apply Forall_app; split); try done.
      * by repeat constructor.
      * destruct r2; by repeat constructor.
Qed.

(** X9: an error that is no [Exception] (the process being interrupted)
    raised by [route_handler] is not absorbed: [link_handler] raises it and
    stops in the world the route step left.  After the [wg.set] request and
    the first log record the trace holds requests of the route step only:
    no FDB request, no lookup of the VXLAN interface, no error record. *)
Theorem link_handler_interrupted c (w w1 w2 : world) r1 e :
  update_wireguard_peer perform c w = (Ok r1, w1) ->
  route_handler perform c (emit (handling_links c) w1) = (Raise e, w2) ->
  is_Exception e = false ->
  link_handler perform c w = (Raise e, w2)
  /\ exists addr evs,
       extends w w2
         (Call (WgSet (wg_interface c) (the_peer c addr))
            :: handling_links c :: evs)
       /\ Forall (calls_only (route_request c)) evs.
Proof.
  intros Hwg Hroute Hexc. split.
  - by rewrite link_handler_run, Hwg, Hroute, Hexc.
  - apply update_wireguard_peer_events in Hwg
      as [(e' & _ & [=] & _) | (addr & _ & Hext1)].
    destruct (route_handler_adds_own perform c _ _ _ Hroute)
      as (t2 & Hext2 & Hall2).
    exists addr, t2. split; [| done].
    change (Call (WgSet (wg_interface c) (the_peer c addr))
              :: handling_links c :: t2)
      with ([Call (WgSet (wg_interface c) (the_peer c addr))]
              ++ [handling_links c] ++ t2).
    eapply extends_trans; [exact Hext1 |].
    eapply extends_trans; [apply extends_emit | exact Hext2].
Qed.

(** X10: in every map [link_handler] returns, ["Wireguard"] and
    ["Bridge FDB"] hold what the adapters returned; only ["Route"] can hold
    an exception, and then one that is an [Exception]. *)
Theorem link_handler_outcome_kinds c (w w' : world) m :
  link_handler perform c w = (Ok m, w') ->
  (exists r1, m !! "Wireguard" = Some (Returned r1))
  /\ (exists r3, m !! "Bridge FDB" = Some (Returned r3))
  /\ ((exists r2, m !! "Route" = Some (Returned r2))
      \/ exists e, m !! "Route" = Some (Caught e) /\ is_Exception e = true).
Proof.
  rewrite link_handler_run.
  destruct (update_wireguard_peer perform c w) as [[r1 | e1] w1]; [| done].
  cbv zeta. unfold fdb_step.
  destruct (route_handler perform c _) as [[r2 | e2] w2].
  - destruct (bridge_fdb_handler perform c _) as [[r3 | e3] w3]; [| done].
    intros [= <- _]. split; [exists r1 | split; [exists r3 | left; exists r2]];
      by simplify_map_eq.
  - destruct (is_Exception e2) eqn:He2; [| done].
    destruct (bridge_fdb_handler perform c _) as [[r3 | e3] w3]; [| done].
    intros [= <- _].
    split; [exists r1 | split; [exists r3 | right; exists e2; split; [| done]]];
      by simplify_map_eq.
Qed.

Lemma link_handler_dom c (w w' : world) m :
  link_handler perform c w = (Ok m, w') -> dom m = outcome_keys.
Proof.
  rewrite link_handler_run.
  destruct (update_wireguard_peer perform c w) as [[r1 | e1] w1]; [| done].
  cbv zeta. unfold fdb_step, outcome_keys.
  destruct (route_handler perform c _) as [[r2 | e2] w2].
  - destruct (bridge_fdb_handler perform c _) as [[r3 | e3] w3]; [| done].
    intros [= <- _]. rewrite !dom_insert_L, dom_empty_L. set_solver.
  - destruct (is_Exception e2); [| done].
    destruct (bridge_fdb_handler perform c _) as [[r3 | e3] w3]; [| done].
    intros [= <- _]. rewrite !dom_insert_L, dom_empty_L. set_solver.
Qed.

Lemma find_stale_query_events iface (w : world) :
  exists evs,
    extends w (snd (find_stale_wireguard_clients perform iface w)) evs
    /\ calls_of evs = [WgInfo iface].
Proof.
  rewrite find_stale_run.
  destruct (perform (WgInfo iface) (kernel w)) as [[devices | e] k];
    cbn [fst snd]; eexists; (split; [reflexivity |]).
  - rewrite calls_of_app, calls_of_got_clients. reflexivity.
  - reflexivity.
Qed.

(** X11: whatever the kernel answers, [find_stale_wireguard_clients] sends
    one request, the query of the interface it was given, and changes the
    kernel in no other way; the clock is left alone. *)
Theorem find_stale_single_query iface (w : world) :
  let w' := snd (find_stale_wireguard_clients perform iface w) in
  (exists evs, extends w w' evs /\ calls_of evs = [WgInfo iface])
  /\ kernel w' = snd (perform (WgInfo iface) (kernel w))
  /\ clock w' = clock w.
Proof.
  cbv zeta. rewrite find_stale_run.
  destruct (perform (WgInfo iface) (kernel w)) as [[devices | e] k];
    cbn [fst snd]; (split; [| done]); eexists; (split; [reflexivity |]).
  - rewrite calls_of_app, calls_of_got_clients. reflexivity.
  - reflexivity.
Qed.

(** X12: whenever [find_stale_wireguard_clients] returns, the keys it
    returns are keys of reported peers, each once per report and in the
    order reported: the result is a subsequence of the reported keys. *)
Theorem find_stale_keys_in_order iface (w : world) keys :
  fst (find_stale_wireguard_clients perform iface w) = Ok keys ->
  exists devices,
    fst (perform (WgInfo iface) (kernel w)) = Ok devices
    /\ sublist keys (map key_text (reported_peers devices))
    /\ (List.length keys <= List.length (reported_peers devices))%nat.
Proof.
  rewrite find_stale_run.
  destruct (perform (WgInfo iface) (kernel w)) as [[devices | e] k];
    cbn [fst]; [| done].
  intros Hkeys%stale_keys_sublist. exists devices.
  split; [done |]. split; [done |].
  apply sublist_length in Hkeys. by rewrite length_map in Hkeys.
Qed.


Lemma find_stale_result_emit iface ev (w : world) :
  fst (find_stale_wireguard_clients perform iface (emit ev w))
  = fst (find_stale_wireguard_clients perform iface w).
Proof.
  rewrite !find_stale_run. cbn [emit kernel clock].
  by destruct (perform (WgInfo iface) (kernel w)) as [[devices | e] k].
Qed.

Lemma for_each_returns {A B} (f : A -> M B) (Q : A -> B -> Prop) xs :
  (forall x (w : world) y w', f x w = (Ok y, w') -> Q x y) ->
  forall (w : world) ys w',
    for_each f xs w = (Ok ys, w') -> Forall2 Q xs ys.
Proof.
  intros Hf. induction xs as [| x xs IH]; intros w ys w'; cbn [for_each].
  - intros [= <- _]. constructor.
  - unfold mbind, mret.
    destruct (f x w) as [[y | e] w1] eqn:Hx; [| done].
    destruct (for_each f xs w1) as [[ys' | e] w2] eqn:Hxs; [| done].
    intros [= <- _]. constructor; [by eapply Hf | by eapply IH].
Qed.

(** X14: when the sweep returns, it returns one outcome map for every key
    the detector found stale, in the detector's order; each is what
    [link_handler] returned for the removal of that key and has the three
    keys ["Wireguard"], ["Route"] and ["Bridge FDB"]. *)
Theorem wg_flush_stale_peers_returns domain (w w' : world) handled :
  wg_flush_stale_peers perform domain w = (Ok handled, w') ->
  exists keys,
    fst (find_stale_wireguard_clients perform ("wg-" +:+ domain) w) = Ok keys
    /\ List.length handled = List.length keys
    /\ Forall2 (fun key m =>
                  dom m = outcome_keys
                  /\ exists w1 w2,
                       link_handler perform (stale_client domain key) w1
                       = (Ok m, w2))
               keys handled.
Proof.
  rewrite wg_flush_stale_peers_run.
  destruct (find_stale_wireguard_clients perform _ (emit _ w))
    as [[keys | e] w0] eqn:Hfind; [| done].
  destruct (for_each _ _ _) as [[handled' | e] w1] eqn:Heach; [| done].
  intros [= <- _]. exists keys.
  apply (f_equal fst) in Hfind. rewrite find_stale_result_emit in Hfind.
  split; [exact Hfind |].
  apply (for_each_returns _
           (fun c m => dom m = outcome_keys
                       /\ exists w1 w2, link_handler perform c w1 = (Ok m, w2)))
    in Heach.
  - apply Forall2_fmap_l in Heach.
    split; [symmetry; by eapply Forall2_length |]. exact Heach.
  - intros c wa m wb Hrun. split; [by eapply link_handler_dom | by eauto].
Qed.

(** X15: when the detector raises, the sweep raises the same error, and
    when it finds no stale peer, the sweep returns the empty list; in both
    cases the query of [wg-domain] is the only request the sweep sends. *)
Theorem wg_flush_stale_peers_idle domain (w : world) :
  let found := fst (find_stale_wireguard_clients perform ("wg-" +:+ domain) w) in
  let run := wg_flush_stale_peers perform domain w in
  (found = Ok [] \/ exists e, found = Raise e) ->
  (found = Ok [] -> fst run = Ok [])
  /\ (forall e, found = Raise e -> fst run = Raise e)
  /\ kernel (snd run) = snd (perform (WgInfo ("wg-" +:+ domain)) (kernel w))
  /\ exists evs,
       extends w (snd run) evs /\ calls_of evs = [WgInfo ("wg-" +:+ domain)].
Proof.
  cbv zeta. rewrite wg_flush_stale_peers_run.
  rewrite <- (find_stale_result_emit _ (searching domain) w).
  rewrite !find_stale_run. cbn [emit kernel clock trace].
  destruct (perform (WgInfo ("wg-" +:+ domain)) (kernel w))
    as [[devices | e] k]; cbn [fst snd].
  - intros [Hnone | [e He]].
    + rewrite Hnone. cbn [map for_each].
      unfold mret, processing, after_info, emit.
      cbn [fst snd kernel clock trace].
      split; [done |]. split; [done |]. split; [done |]. eexists. split.
      * unfold extends. cbn [trace]. rewrite <- !app_assoc. reflexivity.
      * rewrite !calls_of_app, calls_of_got_clients. reflexivity.
    + rewrite He. unfold after_info, emit. cbn [fst snd kernel clock trace].
      split; [done |]. split; [by intros e' [= ->] |]. split; [done |].
      eexists. split.
      * unfold extends. cbn [trace]. rewrite <- !app_assoc. reflexivity.
      * rewrite !calls_of_app, calls_of_got_clients. reflexivity.
  - intros _. split; [done |]. split; [by intros e' [= ->] |].
    split; [done |]. eexists. split.
    + unfold extends. cbn [trace]. rewrite <- !app_assoc. reflexivity.
    + reflexivity.
Qed.

End FurtherRuns.

(** ** The further properties on the scenarios *)


(** The first stale peer of [sweep_world]: the peer is removed, the route
    is deleted, the FDB step finds no [vx-d]. *)
Lemma link_handler_fdb_error_witness :
  let c := stale_client "d" golden_key in
  let w := sweep_world in
  let w1 := snd (update_wireguard_peer Sim.perform c w) in
  let w2 := snd (route_handler Sim.perform c (emit (handling_links c) w1)) in
  let w3 := snd (bridge_fdb_handler Sim.perform c
                   (emit (route_event c (Ok tt)) w2)) in
  update_wireguard_peer Sim.perform c w = (Ok tt, w1)
  /\ route_handler Sim.perform c (emit (handling_links c) w1) = (Ok tt, w2)
  /\ bridge_fdb_handler Sim.perform c (emit (route_event c (Ok tt)) w2)
     = (Raise IndexError, w3)
  /\ link_handler Sim.perform c w = (Raise IndexError, w3)
  /\ map key_text (Sim.peers_of "wg-d" (kernel w3)) = [key_one]
  /\ Sim.routes (kernel w3) = [(one_addr +:+ "/128", 7)].
Proof.
  intros c w w1 w2 w3.
  assert (Hwg : update_wireguard_peer Sim.perform c w = (Ok tt, w1))
    by (vm_compute; reflexivity).
  assert (Hroute : route_handler Sim.perform c (emit (handling_links c) w1)
                   = (Ok tt, w2))
    by (vm_compute; reflexivity).
  assert (Hfdb : bridge_fdb_handler Sim.perform c
                   (emit (route_event c (Ok tt)) w2)
                 = (Raise IndexError, w3))
    by (vm_compute; reflexivity).
  split; [exact Hwg |]. split; [exact Hroute |]. split; [exact Hfdb |].
  split.
  - exact (proj1 (link_handler_fdb_error Sim.perform c w w1 w2 w3 tt (Ok tt)
                    IndexError Hwg Hroute eq_refl Hfdb)).
  - vm_compute. split; reflexivity.
Defined.

(** The process is interrupted during the route request. *)
Lemma link_handler_interrupted_witness :
  let c := client golden_key false in
  let w := interrupted_world in
  let w1 := snd (update_wireguard_peer interrupting c w) in
  let w2 := snd (route_handler interrupting c (emit (handling_links c) w1)) in
  update_wireguard_peer interrupting c w = (Ok tt, w1)
  /\ route_handler interrupting c (emit (handling_links c) w1)
     = (Raise KeyboardInterrupt, w2)
  /\ is_Exception KeyboardInterrupt = false
  /\ link_handler interrupting c w = (Raise KeyboardInterrupt, w2)
  /\ calls_of (trace w2)
     = [WgSet "wg-d" (the_peer c (golden_addr +:+ "/128"));
        LinkLookup "wg-d";
        IpRoute "replace" (golden_addr +:+ "/128") 1].
Proof.
  intros c w w1 w2.
  assert (Hwg : update_wireguard_peer interrupting c w = (Ok tt, w1))
    by (vm_compute; reflexivity).
  assert (Hroute : route_handler interrupting c (emit (handling_links c) w1)
                   = (Raise KeyboardInterrupt, w2))
    by (vm_compute; reflexivity).
  split; [exact Hwg |]. split; [exact Hroute |]. split; [reflexivity |].
  split.
  - exact (proj1 (link_handler_interrupted interrupting c w w1 w2 tt
                    KeyboardInterrupt Hwg Hroute eq_refl)).
  - vm_compute. reflexivity.
Defined.

(** Removing a peer whose route is not there: the map holds the refusal
    under ["Route"] and replies under the other two keys. *)
Lemma link_handler_outcome_kinds_witness :
  let c := client golden_key true in
  let w := world_of (kernel_with interfaces [] [] [(8, golden_addr, 7)]) in
  exists m w',
    link_handler Sim.perform c w = (Ok m, w')
    /\ m !! "Wireguard" = Some (Returned tt)
    /\ m !! "Route" = Some (Caught (NetlinkError 3))
    /\ m !! "Bridge FDB" = Some (Returned tt).
Proof.
  intros c w.
  set (m := <["Bridge FDB" := Returned tt]>
              (<["Route" := Caught (NetlinkError 3)]>
                 (<["Wireguard" := Returned tt]> (∅ : gmap string outcome)))).
  assert (Hlh : link_handler Sim.perform c w
                = (Ok m, snd (link_handler Sim.perform c w)))
    by (apply pair_with_fst; vm_compute; reflexivity).
  exists m, (snd (link_handler Sim.perform c w)).
  split; [exact Hlh |].
  destruct (link_handler_outcome_kinds Sim.perform c w _ m Hlh)
    as ([[] Hwg] & [[] Hfdb] & _).
  split; [exact Hwg |]. split; [reflexivity | exact Hfdb].
Defined.

(** The scenario of section 8, with a fresh peer whose key is no text: the
    key of a peer that is not stale is never decoded. *)
Lemma find_stale_keys_in_order_witness :
  let fresh := {| WGPEER_A_PUBLIC_KEY := Some [xff];
                  WGPEER_A_LAST_HANDSHAKE_TIME := handshake_at T |} in
  let peers := [peer_A; fresh; peer_C] in
  let w := world_of (kernel_with interfaces peers [] []) in
  fst (find_stale_wireguard_clients Sim.perform "wg-d" w) = Ok ["A"; "C"]
  /\ sublist ["A"; "C"] (map key_text peers).
Proof.
  intros fresh peers w.
  assert (Hrun : fst (find_stale_wireguard_clients Sim.perform "wg-d" w)
                 = Ok ["A"; "C"])
    by (vm_compute; reflexivity).
  split; [exact Hrun |].
  destruct (find_stale_keys_in_order Sim.perform "wg-d" w _ Hrun)
    as (devices & Hdev & Hsub & _).
  assert (Hpeers : devices = [ {| WGDEVICE_A_PEERS := Some peers |} ]).
  { assert (H : fst (Sim.perform (WgInfo "wg-d") (kernel w))
                = Ok [ {| WGDEVICE_A_PEERS := Some peers |} ])
      by reflexivity.
    rewrite Hdev in H. by injection H. }
  rewrite Hpeers in Hsub. exact Hsub.
Defined.


(** The sweep of two stale peers on a kernel that has everything. *)
Lemma wg_flush_stale_peers_returns_witness :
  exists handled w',
    wg_flush_stale_peers Sim.perform "d" clean_sweep_world = (Ok handled, w')
    /\ List.length handled = 2%nat
    /\ Forall (fun m => dom m = outcome_keys) handled
    /\ Sim.peers_of "wg-d" (kernel w') = []
    /\ Sim.routes (kernel w') = [] /\ Sim.fdb (kernel w') = [].
Proof.
  set (m := <["Bridge FDB" := Returned tt]>
              (<["Route" := Returned tt]>
                 (<["Wireguard" := Returned tt]> (∅ : gmap string outcome)))).
  assert (Hrun : wg_flush_stale_peers Sim.perform "d" clean_sweep_world
                 = (Ok [m; m],
                    snd (wg_flush_stale_peers Sim.perform "d" clean_sweep_world)))
    by (apply pair_with_fst; vm_compute; reflexivity).
  exists [m; m], (snd (wg_flush_stale_peers Sim.perform "d" clean_sweep_world)).
  split; [exact Hrun |]. split; [reflexivity |].
  destruct (wg_flush_stale_peers_returns Sim.perform "d" clean_sweep_world _ _
              Hrun) as (keys & _ & _ & Hall).
  split.
  - clear Hrun. induction Hall as [| key m' keys' handled' [Hdom _] _ IH];
      constructor; assumption.
  - vm_compute. repeat split.
Defined.

(** A sweep that finds only the fresh peer B. *)
Lemma wg_flush_stale_peers_idle_witness :
  let w := world_of (kernel_with interfaces [peer_B] [] []) in
  fst (find_stale_wireguard_clients Sim.perform ("wg-" +:+ "d") w) = Ok []
  /\ fst (wg_flush_stale_peers Sim.perform "d" w) = Ok []
  /\ kernel (snd (wg_flush_stale_peers Sim.perform "d" w)) = kernel w.
Proof.
  intros w.
  assert (Hnone : fst (find_stale_wireguard_clients Sim.perform ("wg-" +:+ "d") w)
                  = Ok []) by (vm_compute; reflexivity).
  destruct (wg_flush_stale_peers_idle Sim.perform "d" w (or_introl Hnone))
    as (Hok & _ & Hkernel & _).
  split; [exact Hnone |]. split; [exact (Hok Hnone) |].
  rewrite Hkernel. reflexivity.
Defined.
